(** * SlidesDataModule: split, expansion and lifecycle hooks

    A shallow embedding of [src/datamodules/slides_datamodule.py].  The data
    module is a record, its methods are functions over an explicit state (the
    object heap of the process together with the module object) in an error
    monad for Python exceptions.  Split ratios are IEEE binary64 numbers, as
    the default [(0.5, 0.3, 0.2)] is; counts and indices are Python integers,
    that is [Z]. *)

From Stdlib Require Import ZArith Lia List Floats Uint63 Permutation.
From stdpp Require Import base option list gmap strings.

Set Warnings "-inexact-float".
Local Open Scope Z_scope.

(** ** Python fragments used by the module *)

Module Py.

(** The exceptions that can leave [setup]. *)
Inductive exn : Type :=
| ValueError
| OverflowError
| AttributeError
| CollaboratorError (what : string).

Definition result (A : Type) : Type := exn + A.

#[global] Instance result_ret : MRet result := fun _ a => inr a.
#[global] Instance result_bind : MBind result :=
  fun _ _ f m => match m with inl e => inl e | inr a => f a end.

Definition raise {A : Type} (e : exn) : result A := inl e.

(** [len(obj)]: what [__len__] returns must fit a [Py_ssize_t]. *)
Definition len (n : Z) : result Z :=
  if n <? 0 then raise ValueError
  else if 2 ^ 63 <=? n then raise OverflowError
  else mret n.

(** The implicit conversion of the integer operand of [float * int], on the
    range of [len]. *)
Definition float_of_len (n : Z) : float := PrimFloat.of_uint63 (Uint63.of_Z n).

(** The integer a finite binary64 value is a multiple of. *)
Definition signed (s : bool) (m : positive) : Z :=
  if s then Z.neg m else Z.pos m.

(** [int(x)] on a float: truncation towards zero; infinities and NaN raise. *)
Definition int_of_SF (x : spec_float) : result Z :=
  match x with
  | S754_zero _ => mret 0
  | S754_infinity _ => raise OverflowError
  | S754_nan => raise ValueError
  | S754_finite s m e =>
      mret (if 0 <=? e then signed s m * 2 ^ e
            else Z.quot (signed s m) (2 ^ (- e)))
  end.

Definition int (x : float) : result Z := int_of_SF (Prim2SF x).

(** [math.floor(x)], the function the specification names; [None] where the
    value is not finite. *)
Definition floor_of_SF (x : spec_float) : option Z :=
  match x with
  | S754_zero _ => Some 0
  | S754_finite s m e =>
      Some (if 0 <=? e then signed s m * 2 ^ e
            else Z.div (signed s m) (2 ^ (- e)))
  | _ => None
  end.

Definition floor (x : float) : option Z := floor_of_SF (Prim2SF x).

(** [range(n)] as a list. *)
Definition range (n : Z) : list Z := map Z.of_nat (seq 0 (Z.to_nat n)).

(** [sum(xs)] over integers. *)
Definition sum (xs : list Z) : Z := fold_left Z.add xs 0.

(** A slice bound brought into [0 .. length]: negative bounds count from the
    end, everything is clamped. *)
Definition clamp (n i : Z) : Z :=
  if i <? 0 then Z.max (i + n) 0 else Z.min i n.

(** [l[a:b]] on a list. *)
Definition slice {A : Type} (l : list A) (a b : Z) : list A :=
  let n := Z.of_nat (length l) in
  let a' := clamp n a in
  let b' := clamp n b in
  firstn (Z.to_nat (b' - a')) (skipn (Z.to_nat a') l).

(** Truth value of an [Optional] object that defines [__len__]. *)
Definition truthy {A : Type} (length_of : A -> nat) (o : option A) : bool :=
  match o with
  | None => false
  | Some a => negb (Nat.eqb (length_of a) 0)
  end.

(** The values a [Dict[str, Any]] of a checkpoint may hold. *)
Inductive value : Type :=
| VNone
| VBool (b : bool)
| VInt (z : Z)
| VFloat (f : float)
| VStr (s : string).

End Py.

Import Py.


(** ** Collaborator objects *)

(** The transform objects of [torchvision] the module composes. *)
Inductive Transform : Type :=
| ToTensor.

(** What this module observes of a [SlidesDataset] object: the value of
    [__len__] and the mutable attribute [patch_per_slide]. *)
Module SlidesDataset.
Record t : Type := mk {
  total_samples : Z;
  patch_per_slide : Z
}.
Definition set_patch_per_slide (d : t) (p : Z) : t :=
  {| total_samples := total_samples d; patch_per_slide := p |}.
End SlidesDataset.

(** The heap of dataset objects of one process; a reference is an index. *)
Abbreviation heap := (list SlidesDataset.t).

Definition alloc (h : heap) (d : SlidesDataset.t) : nat * heap :=
  (length h, h ++ [d]).

Definition deref (h : heap) (a : nat) : result SlidesDataset.t :=
  match h !! a with
  | Some d => mret d
  | None => raise AttributeError
  end.

(** [h[a].patch_per_slide = p]. *)
Definition setattr_patch_per_slide (h : heap) (a : nat) (p : Z) : result heap :=
  d ← deref h a;
  mret (<[a := SlidesDataset.set_patch_per_slide d p]> h).

(** [torch.utils.data.Subset]: a reference to the shared dataset and a list
    of indices into it. *)
Module Subset.
Record t : Type := mk {
  dataset : nat;
  indices : list Z
}.
Definition set_indices (s : t) (l : list Z) : t :=
  {| dataset := dataset s; indices := l |}.
(** [Subset.__len__]. *)
Definition len (s : t) : nat := length (indices s).
End Subset.

(** [itertools.accumulate]: the running sums. *)
Fixpoint accumulate_from (acc : Z) (xs : list Z) : list Z :=
  match xs with
  | [] => []
  | x :: rest => (acc + x) :: accumulate_from (acc + x) rest
  end.

Definition accumulate (xs : list Z) : list Z := accumulate_from 0 xs.

(** The arguments a [DataLoader] is constructed with. *)
Module DataLoader.
Record t : Type := mk {
  dataset : option Subset.t;
  batch_size : Z;
  num_workers : Z;
  pin_memory : bool;
  shuffle : bool
}.
End DataLoader.

(** The sampler a [DataLoader] draws indices from, chosen by [shuffle]. *)
Inductive Sampler : Type :=
| SequentialSampler
| RandomSampler.

Definition sampler_of (dl : DataLoader.t) : Sampler :=
  if DataLoader.shuffle dl then RandomSampler else SequentialSampler.

(** The positions a sequential sampler yields over a partition, and the
    dataset indices they fetch: the partition's list, in its order. *)
Definition sequential_positions (s : Subset.t) : list Z :=
  range (Z.of_nat (Subset.len s)).

Definition sequential_fetch (s : Subset.t) : list Z :=
  omap (fun k => Subset.indices s !! Z.to_nat k) (sequential_positions s).

(** ** The data module *)

Module HParams.
Record t : Type := mk {
  slides_file : string;
  patch_per_slide : Z;
  crop_size : Z;
  patch_size : Z;
  train_val_test_split : float * float * float;
  batch_size : Z;
  num_workers : Z;
  pin_memory : bool;
  dino : bool
}.
(** The defaults of [__init__]. *)
Definition default : t :=
  {| slides_file := "data/slides.json";
     patch_per_slide := 1;
     crop_size := 300;
     patch_size := 224;
     train_val_test_split := (0.5, 0.3, 0.2)%float;
     batch_size := 64;
     num_workers := 0;
     pin_memory := false;
     dino := false |}.
End HParams.

Module SlidesDataModule.
Record t : Type := mk {
  hparams : HParams.t;
  transforms : list Transform;
  data_train : option Subset.t;
  data_val : option Subset.t;
  data_test : option Subset.t
}.
Definition set_partitions (self : t) (tr va te : option Subset.t) : t :=
  {| hparams := hparams self;
     transforms := transforms self;
     data_train := tr;
     data_val := va;
     data_test := te |}.
End SlidesDataModule.

Import SlidesDataModule.

(** [__init__]: the hyperparameters are stored, the partitions are [None]. *)
Definition init (hp : HParams.t) : SlidesDataModule.t :=
  {| hparams := hp;
     transforms := [ToTensor];
     data_train := None;
     data_val := None;
     data_test := None |}.

Definition num_classes (self : SlidesDataModule.t) : Z := 2.

(** One process: its dataset objects and the data module object. *)
Module Process.
Record t : Type := mk {
  objects : heap;
  self : SlidesDataModule.t
}.
End Process.

Definition prepare_data (p : Process.t) : result Process.t := mret p.

Definition teardown (stage : option string) (p : Process.t) : result Process.t :=
  mret p.

(** Lines 89 to 91 of [setup]: the three lengths handed to [random_split]. *)
Definition split_lengths (split : float * float * float) (total_samples : Z)
  : result (Z * Z * Z) :=
  let '(f_train, f_val, _) := split in
  train_samples ← Py.int (f_train * float_of_len total_samples)%float;
  val_samples ← Py.int (f_val * float_of_len total_samples)%float;
  let test_samples := total_samples - train_samples - val_samples in
  mret (train_samples, val_samples, test_samples).

(** The comprehension of lines 102 to 104: the outer loop runs over [j]. *)
Definition expand (P : Z) (indices : list Z) : list Z :=
  flat_map (fun j => map (fun i => i * P + j) indices) (range P).

(** The guard of line 86. *)
Definition unpopulated (self : SlidesDataModule.t) : bool :=
  negb (truthy Subset.len (data_train self))
  && negb (truthy Subset.len (data_val self))
  && negb (truthy Subset.len (data_test self)).

(** Attribute access on an [Optional] partition. *)
Definition the_partition (o : option Subset.t) : result Subset.t :=
  match o with
  | Some s => mret s
  | None => raise AttributeError
  end.

(** Lines 99 to 104 of [setup]. *)
Definition expand_stage (p : Process.t) : result Process.t :=
  let self := Process.self p in
  let P := HParams.patch_per_slide (hparams self) in
  tr ← the_partition (data_train self);
  h1 ← setattr_patch_per_slide (Process.objects p) (Subset.dataset tr) P;
  va ← the_partition (data_val self);
  h2 ← setattr_patch_per_slide h1 (Subset.dataset va) P;
  te ← the_partition (data_test self);
  h3 ← setattr_patch_per_slide h2 (Subset.dataset te) P;
  let tr' := Subset.set_indices tr (expand P (Subset.indices tr)) in
  let va' := Subset.set_indices va (expand P (Subset.indices va)) in
  let te' := Subset.set_indices te (expand P (Subset.indices te)) in
  mret {| Process.objects := h3;
          Process.self := set_partitions self (Some tr') (Some va') (Some te') |}.

Section Collaborators.

(** [torch.Generator], [Generator.manual_seed] and [torch.randperm]. *)
Variable Generator : Type.
Variable manual_seed : Z -> Generator.
Variable randperm : Z -> Generator -> list Z.

(** The constructor of the repository's [SlidesDataset], which reads the
    slides file. *)
Variable SlidesDataset_init :
  string -> Z -> Z -> list Transform -> bool -> result SlidesDataset.t.

(** [torch.utils.data.random_split] on integer lengths: the sum is checked
    against [len(dataset)], then a permutation of that many indices is cut
    into consecutive slices [indices[offset - length : offset]]. *)
Definition random_split (h : heap) (dataset : nat) (lengths : list Z)
    (generator : Generator) : result (list Subset.t) :=
  d ← deref h dataset;
  n ← Py.len (SlidesDataset.total_samples d);
  if negb (Py.sum lengths =? n) then raise ValueError
  else
    let indices := randperm (Py.sum lengths) generator in
    mret (map (fun '(offset, length) =>
                 Subset.mk dataset (slice indices (offset - length) offset))
              (zip (accumulate lengths) lengths)).

(** Lines 87 to 97 of [setup]. *)
Definition split_stage (p : Process.t) : result Process.t :=
  let self := Process.self p in
  let hp := hparams self in
  d ← SlidesDataset_init (HParams.slides_file hp) (HParams.crop_size hp)
        (HParams.patch_size hp) (transforms self) (HParams.dino hp);
  let '(dataset, h) := alloc (Process.objects p) d in
  total_samples ← Py.len (SlidesDataset.total_samples d);
  '(train_samples, val_samples, test_samples) ←
     split_lengths (HParams.train_val_test_split hp) total_samples;
  parts ← random_split h dataset [train_samples; val_samples; test_samples]
            (manual_seed 42);
  match parts with
  | [tr; va; te] =>
      mret {| Process.objects := h;
              Process.self := set_partitions self (Some tr) (Some va) (Some te) |}
  | _ => raise ValueError
  end.

Definition setup (stage : option string) (p : Process.t) : result Process.t :=
  if unpopulated (Process.self p) then
    p1 ← split_stage p;
    expand_stage p1
  else mret p.

End Collaborators.

Definition train_dataloader (self : SlidesDataModule.t) : DataLoader.t :=
  {| DataLoader.dataset := data_train self;
     DataLoader.batch_size := HParams.batch_size (hparams self);
     DataLoader.num_workers := HParams.num_workers (hparams self);
     DataLoader.pin_memory := HParams.pin_memory (hparams self);
     DataLoader.shuffle := true |}.

Definition val_dataloader (self : SlidesDataModule.t) : DataLoader.t :=
  {| DataLoader.dataset := data_val self;
     DataLoader.batch_size := HParams.batch_size (hparams self);
     DataLoader.num_workers := HParams.num_workers (hparams self);
     DataLoader.pin_memory := HParams.pin_memory (hparams self);
     DataLoader.shuffle := false |}.

Definition test_dataloader (self : SlidesDataModule.t) : DataLoader.t :=
  {| DataLoader.dataset := data_test self;
     DataLoader.batch_size := HParams.batch_size (hparams self);
     DataLoader.num_workers := HParams.num_workers (hparams self);
     DataLoader.pin_memory := HParams.pin_memory (hparams self);
     DataLoader.shuffle := false |}.

(** [state_dict] returns the empty dictionary. *)
Definition state_dict (self : SlidesDataModule.t) : gmap string value := ∅.

(** [load_state_dict] is [pass]. *)
Definition load_state_dict (state : gmap string value) (p : Process.t)
  : result Process.t :=
  mret p.

(** ** A concrete instance, for evaluation *)

(** A seeded stand-in for [torch.randperm]: the range rotated by the seed. *)
Definition rotate_perm (n : Z) (seed : Z) : list Z :=
  let r := range n in
  let k := Z.to_nat (seed mod Z.max n 1) in
  skipn k r ++ firstn k r.

Definition ten_slides (file : string) (crop patch : Z) (tf : list Transform)
    (dino : bool) : result SlidesDataset.t :=
  mret {| SlidesDataset.total_samples := 10; SlidesDataset.patch_per_slide := 1 |}.

Definition demo_setup : option string -> Process.t -> result Process.t :=
  setup Z (fun seed => seed) rotate_perm ten_slides.

Definition fresh (hp : HParams.t) : Process.t :=
  {| Process.objects := []; Process.self := init hp |}.

Definition two_patches : HParams.t :=
  {| HParams.slides_file := "data/slides.json";
     HParams.patch_per_slide := 2;
     HParams.crop_size := 300;
     HParams.patch_size := 224;
     HParams.train_val_test_split := (0.5, 0.3, 0.2)%float;
     HParams.batch_size := 64;
     HParams.num_workers := 0;
     HParams.pin_memory := false;
     HParams.dino := false |}.

Definition demo_split_stage : Process.t -> result Process.t :=
  split_stage Z (fun seed => seed) rotate_perm ten_slides.

(** A second process: another object already lives on its heap, and its
    reader builds the dataset with another initial [patch_per_slide]. *)
Definition ten_slides_elsewhere (file : string) (crop patch : Z)
    (tf : list Transform) (dino : bool) : result SlidesDataset.t :=
  mret {| SlidesDataset.total_samples := 10; SlidesDataset.patch_per_slide := 4 |}.

Definition elsewhere (hp : HParams.t) : Process.t :=
  {| Process.objects :=
       [{| SlidesDataset.total_samples := 3; SlidesDataset.patch_per_slide := 1 |}];
     Process.self := init hp |}.

(** A slides file without slides. *)
Definition no_slides (file : string) (crop patch : Z) (tf : list Transform)
    (dino : bool) : result SlidesDataset.t :=
  mret {| SlidesDataset.total_samples := 0; SlidesDataset.patch_per_slide := 1 |}.

Definition after_empty_setup (objects : nat) : Process.t :=
  {| Process.objects :=
       repeat {| SlidesDataset.total_samples := 0;
                 SlidesDataset.patch_per_slide := 2 |} objects;
     Process.self :=
       set_partitions (init two_patches)
         (Some (Subset.mk (objects - 1) []))
         (Some (Subset.mk (objects - 1) []))
         (Some (Subset.mk (objects - 1) [])) |}.

(** The states the demo reaches from a fresh module. *)
Definition after_split : Process.t :=
  {| Process.objects :=
       [{| SlidesDataset.total_samples := 10; SlidesDataset.patch_per_slide := 1 |}];
     Process.self :=
       set_partitions (init two_patches)
         (Some (Subset.mk 0 [2; 3; 4; 5; 6]))
         (Some (Subset.mk 0 [7; 8; 9]))
         (Some (Subset.mk 0 [0; 1])) |}.

Definition after_setup : Process.t :=
  {| Process.objects :=
       [{| SlidesDataset.total_samples := 10; SlidesDataset.patch_per_slide := 2 |}];
     Process.self :=
       set_partitions (init two_patches)
         (Some (Subset.mk 0 [4; 6; 8; 10; 12; 5; 7; 9; 11; 13]))
         (Some (Subset.mk 0 [14; 16; 18; 15; 17; 19]))
         (Some (Subset.mk 0 [0; 2; 1; 3])) |}.

(** ** Floating point: the sign of [ratio * total_samples] *)

(** The value is not a negative finite number. *)
Definition not_negative (x : spec_float) : Prop :=
  match x with
  | S754_finite true _ _ => False
  | _ => True
  end.

(** A ratio is non-negative when [0.0 <= f] holds in Python. *)
Definition ratio_nonneg (f : float) : Prop := (0 <=? f)%float = true.

Definition ratios_nonneg (split : float * float * float) : Prop :=
  ratio_nonneg split.1.1 /\ ratio_nonneg split.1.2.

(** ** Vocabulary of the properties *)

(** No index occurs in two of the three lists. *)
Definition disjoint3 (a b c : list Z) : Prop :=
  (forall i, i ∈ a -> i ∉ b) /\ (forall i, i ∈ a -> i ∉ c) /\
  (forall i, i ∈ b -> i ∉ c).

(** Every index of [range(n)] occurs exactly once across the three lists,
    and nothing else occurs. *)
Definition covers_once (n : Z) (a b c : list Z) : Prop :=
  Permutation (a ++ b ++ c) (range n).

(** The three partitions of the module, by name. *)
Inductive Part : Type :=
| Train
| Val
| Test.

Definition partition (k : Part) (self : SlidesDataModule.t) : option Subset.t :=
  match k with
  | Train => data_train self
  | Val => data_val self
  | Test => data_test self
  end.

(** The index list of a partition, [None] while the field is [None]. *)
Definition partition_indices (k : Part) (self : SlidesDataModule.t)
  : option (list Z) :=
  Subset.indices <$> partition k self.

(** At least one partition is populated: the negation of the guard. *)
Definition some_populated (self : SlidesDataModule.t) : Prop :=
  truthy Subset.len (data_train self) = true \/
  truthy Subset.len (data_val self) = true \/
  truthy Subset.len (data_test self) = true.

(** The set the specification gives for an expanded list. *)
Definition in_expansion (P : Z) (I : list Z) (x : Z) : Prop :=
  exists i j, i ∈ I /\ 0 <= j < P /\ x = i * P + j.

(** The state [setup] leaves when it computes the split: the dataset [d] is
    allocated after the objects of [p] and carries [patch_per_slide], and the
    partitions are the expanded slices of [perm] cut at [t] and [t + v]. *)
Definition computed (p : Process.t) (d : SlidesDataset.t) (perm : list Z)
    (t v : Z) : Process.t :=
  let P := HParams.patch_per_slide (hparams (Process.self p)) in
  let a := length (Process.objects p) in
  let n := SlidesDataset.total_samples d in
  {| Process.objects :=
       Process.objects p ++ [SlidesDataset.set_patch_per_slide d P];
     Process.self :=
       set_partitions (Process.self p)
         (Some (Subset.mk a (expand P (slice perm 0 t))))
         (Some (Subset.mk a (expand P (slice perm t (t + v)))))
         (Some (Subset.mk a (expand P (slice perm (t + v) n)))) |}.

(** ** Further vocabulary *)

(** [math.isnan]. *)
Definition is_nan (x : float) : bool :=
  match Prim2SF x with
  | S754_nan => true
  | _ => false
  end.

(** Hyperparameters that differ from [hp] in one argument of [__init__]. *)
Definition with_split (hp : HParams.t) (split : float * float * float)
  : HParams.t :=
  {| HParams.slides_file := HParams.slides_file hp;
     HParams.patch_per_slide := HParams.patch_per_slide hp;
     HParams.crop_size := HParams.crop_size hp;
     HParams.patch_size := HParams.patch_size hp;
     HParams.train_val_test_split := split;
     HParams.batch_size := HParams.batch_size hp;
     HParams.num_workers := HParams.num_workers hp;
     HParams.pin_memory := HParams.pin_memory hp;
     HParams.dino := HParams.dino hp |}.

Definition with_patch_per_slide (hp : HParams.t) (P : Z) : HParams.t :=
  {| HParams.slides_file := HParams.slides_file hp;
     HParams.patch_per_slide := P;
     HParams.crop_size := HParams.crop_size hp;
     HParams.patch_size := HParams.patch_size hp;
     HParams.train_val_test_split := HParams.train_val_test_split hp;
     HParams.batch_size := HParams.batch_size hp;
     HParams.num_workers := HParams.num_workers hp;
     HParams.pin_memory := HParams.pin_memory hp;
     HParams.dino := HParams.dino hp |}.

(** The arguments [setup] constructs the dataset with. *)
Definition construct
    (init_ : string -> Z -> Z -> list Transform -> bool -> result SlidesDataset.t)
    (self : SlidesDataModule.t) : result SlidesDataset.t :=
  init_ (HParams.slides_file (hparams self)) (HParams.crop_size (hparams self))
    (HParams.patch_size (hparams self)) (transforms self)
    (HParams.dino (hparams self)).

(** ** [setup] statement by statement

    A second reading of [setup] that keeps the state reached when an
    exception stops it: every assignment to a field and every attribute
    store is a step of its own. *)

Definition stmt (A : Type) : Type := Process.t -> result A * Process.t.

#[global] Instance stmt_ret : MRet stmt := fun _ a p => (inr a, p).
#[global] Instance stmt_bind : MBind stmt :=
  fun _ _ f m p =>
    match m p with
    | (inl e, p') => (inl e, p')
    | (inr a, p') => f a p'
    end.

(** An expression that reads no state. *)
Definition eval {A : Type} (r : result A) : stmt A := fun p => (r, p).

Definition get_self : stmt SlidesDataModule.t :=
  fun p => (inr (Process.self p), p).

Definition get_objects : stmt (list SlidesDataset.t) :=
  fun p => (inr (Process.objects p), p).

(** The object a constructor call returns is put on the heap. *)
Definition new_dataset (d : SlidesDataset.t) : stmt nat :=
  fun p =>
    let '(a, h) := alloc (Process.objects p) d in
    (inr a, {| Process.objects := h; Process.self := Process.self p |}).

(** [self.data_train = s], [self.data_val = s], [self.data_test = s]. *)
Definition assign (k : Part) (s : Subset.t) : stmt unit :=
  fun p =>
    let self := Process.self p in
    (inr tt,
     {| Process.objects := Process.objects p;
        Process.self :=
          match k with
          | Train => set_partitions self (Some s) (data_val self) (data_test self)
          | Val => set_partitions self (data_train self) (Some s) (data_test self)
          | Test => set_partitions self (data_train self) (data_val self) (Some s)
          end |}).

(** An attribute store on the dataset object at [a]. *)
Definition store_attr (a : nat) (P : Z) : stmt unit :=
  fun p =>
    match setattr_patch_per_slide (Process.objects p) a P with
    | inl e => (inl e, p)
    | inr h => (inr tt, {| Process.objects := h; Process.self := Process.self p |})
    end.

(** [self.<partition>.dataset.patch_per_slide = P]. *)
Definition store_patch_per_slide (k : Part) (P : Z) : stmt unit :=
  self ← get_self;
  s ← eval (the_partition (partition k self));
  store_attr (Subset.dataset s) P.

(** [self.<partition>.indices = [i * P + j for j in range(P) for i in
    self.<partition>.indices]]. *)
Definition store_expanded (k : Part) (P : Z) : stmt unit :=
  self ← get_self;
  s ← eval (the_partition (partition k self));
  assign k (Subset.set_indices s (expand P (Subset.indices s))).

Section Statements.

Variable Generator : Type.
Variable manual_seed : Z -> Generator.
Variable randperm : Z -> Generator -> list Z.
Variable SlidesDataset_init :
  string -> Z -> Z -> list Transform -> bool -> result SlidesDataset.t.

Definition setup_steps (stage : option string) : stmt unit :=
  self ← get_self;
  if unpopulated self then
    let hp := hparams self in
    d ← eval (SlidesDataset_init (HParams.slides_file hp) (HParams.crop_size hp)
                (HParams.patch_size hp) (transforms self) (HParams.dino hp));
    dataset ← new_dataset d;
    total_samples ← eval (Py.len (SlidesDataset.total_samples d));
    '(train_samples, val_samples, test_samples) ←
       eval (split_lengths (HParams.train_val_test_split hp) total_samples);
    h ← get_objects;
    parts ← eval (random_split Generator randperm h dataset
                    [train_samples; val_samples; test_samples] (manual_seed 42));
    _ ← match parts with
        | [tr; va; te] =>
            _ ← assign Train tr; _ ← assign Val va; assign Test te
        | _ => eval (raise ValueError)
        end;
    _ ← store_patch_per_slide Train (HParams.patch_per_slide hp);
    _ ← store_patch_per_slide Val (HParams.patch_per_slide hp);
    _ ← store_patch_per_slide Test (HParams.patch_per_slide hp);
    _ ← store_expanded Train (HParams.patch_per_slide hp);
    _ ← store_expanded Val (HParams.patch_per_slide hp);
    store_expanded Test (HParams.patch_per_slide hp)
  else mret tt.

End Statements.

(** Instances the further properties are evaluated on. *)
Definition nan_train : HParams.t :=
  with_split two_patches (PrimFloat.nan, 0.3, 0.2)%float.

Definition other_config : HParams.t :=
  {| HParams.slides_file := "data/other.json";
     HParams.patch_per_slide := 2;
     HParams.crop_size := 512;
     HParams.patch_size := 256;
     HParams.train_val_test_split := (0.5, 0.3, 0.9)%float;
     HParams.batch_size := 8;
     HParams.num_workers := 4;
     HParams.pin_memory := true;
     HParams.dino := true |}.

Lemma binary_round_aux_sign (s : bool) (m e : Z) (l : location) (s' : bool)
    (m' : positive) (e' : Z) :
  binary_round_aux prec emax s m e l = S754_finite s' m' e' -> s' = s.
Proof.
  unfold binary_round_aux.
  destruct (shr_fexp prec emax m e l) as [r1 e1].
  destruct (shr_fexp prec emax _ e1 loc_Exact) as [r2 e2].
  destruct (shr_m r2); [discriminate | | discriminate].
  destruct (e2 <=? emax - prec)%Z; [ | discriminate].
  intros H; injection H; intros; subst; reflexivity.
Qed.

Lemma float_of_len_not_negative (n : Z) (s : bool) (m : positive) (e : Z) :
  Prim2SF (float_of_len n) = S754_finite s m e -> s = false.
Proof.
  unfold float_of_len. rewrite of_uint63_spec.
  unfold binary_normalize.
  pose proof (Uint63.to_Z_bounded (Uint63.of_Z n)) as Hb.
  destruct (Uint63.to_Z (Uint63.of_Z n)) as [ | k | k ]; [discriminate | | lia].
  unfold binary_round. destruct (shl_align k 0 _) as [mz ez].
  apply binary_round_aux_sign.
Qed.

Lemma ratio_nonneg_sign (f : float) (m : positive) (e : Z) :
  ratio_nonneg f -> Prim2SF f <> S754_finite true m e.
Proof.
  unfold ratio_nonneg. rewrite FloatAxioms.leb_spec. intros H Hf.
  rewrite Hf in H. vm_compute in H. discriminate.
Qed.

Lemma product_not_negative (f : float) (n : Z) :
  ratio_nonneg f -> not_negative (Prim2SF (f * float_of_len n)%float).
Proof.
  intros Hf. rewrite FloatAxioms.mul_spec. unfold SF64mul, SFmul.
  pose proof (fun m e => ratio_nonneg_sign f m e Hf) as Hs.
  pose proof (float_of_len_not_negative n) as Hn.
  destruct (Prim2SF f) as [sf | sf | | sf mf ef];
    destruct (Prim2SF (float_of_len n)) as [sn | sn | | sn mn en];
    simpl; try exact I.
  destruct sf; [ exfalso; eapply Hs; reflexivity | ].
  rewrite (Hn _ _ _ eq_refl). simpl.
  destruct (binary_round_aux prec emax false (Z.pos (mf * mn)) (ef + en) loc_Exact)
    as [ | | | s' m' e'] eqn:E; try exact I.
  apply binary_round_aux_sign in E. subst s'. exact I.
Qed.

Lemma int_of_SF_floor (x : spec_float) (t : Z) :
  not_negative x -> (int_of_SF x = inr t <-> floor_of_SF x = Some t).
Proof.
  destruct x as [s | s | | s m e]; simpl; intros Hx.
  - unfold mret, result_ret. split; intros H; injection H; intros; subst; reflexivity.
  - unfold raise. split; discriminate.
  - unfold raise. split; discriminate.
  - destruct s; [contradiction | ]. unfold mret, result_ret. simpl.
    destruct (0 <=? e)%Z eqn:He.
    + split; intros H; injection H; intros; subst; reflexivity.
    + rewrite Z.quot_div_nonneg; [ | lia | ].
      * split; intros H; injection H; intros; subst; reflexivity.
      * apply Z.pow_pos_nonneg; lia.
Qed.

Lemma int_of_SF_nonneg (x : spec_float) (t : Z) :
  not_negative x -> int_of_SF x = inr t -> 0 <= t.
Proof.
  destruct x as [s | s | | s m e]; simpl; intros Hx H; try discriminate.
  - injection H; intros; subst; lia.
  - destruct s; [contradiction | ]. injection H; intros <-. simpl.
    destruct (0 <=? e)%Z eqn:He.
    + apply Z.mul_nonneg_nonneg; [lia | apply Z.pow_nonneg; lia].
    + apply Z.quot_pos; [lia | apply Z.pow_pos_nonneg; lia].
Qed.

(** ** The error monad *)

Lemma bind_inr {A B : Type} (m : result A) (f : A -> result B) (b : B) :
  (m ≫= f) = inr b <-> exists a, m = inr a /\ f a = inr b.
Proof.
  unfold mbind, result_bind. destruct m as [e | a].
  - split; [discriminate | intros (a & H & _); discriminate].
  - split; [intros H; exists a; auto | intros (a' & H & H'); congruence].
Qed.

Lemma bind_inr_l {A B : Type} (a : A) (f : A -> result B) :
  (inr a ≫= f) = f a.
Proof. reflexivity. Qed.

Lemma len_inr (n k : Z) : Py.len n = inr k <-> k = n /\ 0 <= n < 2 ^ 63.
Proof.
  unfold Py.len.
  destruct (n <? 0) eqn:E1; [ | destruct (2 ^ 63 <=? n) eqn:E2 ].
  - split; [discriminate | lia].
  - split; [discriminate | lia].
  - unfold mret, result_ret. split.
    + intros H; injection H; intros; subst. lia.
    + intros [-> _]. reflexivity.
Qed.

(** ** Split lengths *)

Lemma split_lengths_inr (split : float * float * float) (n t v te : Z) :
  split_lengths split n = inr (t, v, te) <->
  Py.int (split.1.1 * float_of_len n)%float = inr t /\
  Py.int (split.1.2 * float_of_len n)%float = inr v /\
  te = n - t - v.
Proof.
  destruct split as [[ft fv] fe]. unfold split_lengths. simpl.
  rewrite bind_inr. split.
  - intros (t' & Ht & H). apply bind_inr in H. destruct H as (v' & Hv & H).
    injection H; intros; subst. auto.
  - intros (Ht & Hv & ->). exists t. split; [exact Ht | ].
    rewrite Hv. reflexivity.
Qed.

Lemma split_lengths_sum (split : float * float * float) (n t v te : Z) :
  split_lengths split n = inr (t, v, te) -> Py.sum [t; v; te] = n.
Proof.
  rewrite split_lengths_inr. intros (_ & _ & ->). unfold Py.sum. simpl. lia.
Qed.

Lemma split_lengths_nonneg (split : float * float * float) (n t v te : Z) :
  ratios_nonneg split ->
  split_lengths split n = inr (t, v, te) -> 0 <= t /\ 0 <= v.
Proof.
  intros [H1 H2]. rewrite split_lengths_inr. intros (Ht & Hv & _). split.
  - eapply int_of_SF_nonneg; [ | exact Ht ]. apply product_not_negative, H1.
  - eapply int_of_SF_nonneg; [ | exact Hv ]. apply product_not_negative, H2.
Qed.

(** C1: for non-negative ratios, [setup] computes the lengths
    [train = floor(f_train * total)], [val = floor(f_val * total)] and
    [test = total - train - val] (it returns exactly when both floors exist),
    and the three lengths add up to [total_samples]. *)
Theorem split_lengths_floor (split : float * float * float) (n t v te : Z) :
  ratios_nonneg split ->
  (split_lengths split n = inr (t, v, te) <->
     Py.floor (split.1.1 * float_of_len n)%float = Some t /\
     Py.floor (split.1.2 * float_of_len n)%float = Some v /\
     te = n - t - v) /\
  (split_lengths split n = inr (t, v, te) -> t + v + te = n).
Proof.
  intros [H1 H2]. split.
  - rewrite split_lengths_inr. unfold Py.int, Py.floor.
    rewrite (int_of_SF_floor _ t (product_not_negative _ n H1)).
    rewrite (int_of_SF_floor _ v (product_not_negative _ n H2)).
    reflexivity.
  - rewrite split_lengths_inr. intros (_ & _ & ->). lia.
Qed.

(** ** Ranges and slices *)

Lemma range_length (n : Z) : length (range n) = Z.to_nat n.
Proof. unfold range. rewrite length_map, length_seq. reflexivity. Qed.

Lemma elem_of_range (n i : Z) : i ∈ range n <-> 0 <= i < n.
Proof.
  unfold range. rewrite list_elem_of_fmap. split.
  - intros (k & -> & Hk). apply elem_of_seq in Hk. lia.
  - intros Hi. exists (Z.to_nat i). split; [lia | ].
    apply elem_of_seq. lia.
Qed.

Lemma NoDup_range (n : Z) : NoDup (range n).
Proof.
  unfold range. apply NoDup_fmap_2; [ | apply NoDup_seq ].
  intros a b H. lia.
Qed.

Lemma clamp_nonneg (n i : Z) : 0 <= n -> 0 <= i -> clamp n i = Z.min i n.
Proof. intros Hn Hi. unfold clamp. destruct (i <? 0) eqn:E; lia. Qed.

Lemma take_take_drop_drop {A : Type} (l : list A) (a b : nat) :
  (a <= b)%nat -> take a l ++ take (b - a) (drop a l) ++ drop b l = l.
Proof.
  intros Hab. replace (drop b l) with (drop (b - a) (drop a l)).
  - rewrite take_drop. apply take_drop.
  - rewrite drop_drop. f_equal. lia.
Qed.

(** The three slices [random_split] cuts for lengths [t; v; n - t - v]
    concatenate to the whole list when [t] and [v] are not negative. *)
Lemma slices_cover {A : Type} (l : list A) (t v : Z) :
  0 <= t -> 0 <= v ->
  slice l 0 t ++ slice l t (t + v) ++ slice l (t + v) (Z.of_nat (length l)) = l.
Proof.
  intros Ht Hv. unfold slice.
  set (n := Z.of_nat (length l)).
  assert (Hn : 0 <= n) by lia.
  rewrite !clamp_nonneg by lia.
  replace (Z.to_nat (Z.min 0 n)) with 0%nat by lia. rewrite drop_0.
  replace (Z.min t n - Z.min 0 n) with (Z.min t n) by lia.
  replace (take (Z.to_nat (Z.min n n - Z.min (t + v) n))
             (drop (Z.to_nat (Z.min (t + v) n)) l))
    with (drop (Z.to_nat (Z.min (t + v) n)) l).
  - replace (Z.to_nat (Z.min (t + v) n - Z.min t n))
      with (Z.to_nat (Z.min (t + v) n) - Z.to_nat (Z.min t n))%nat by lia.
    apply take_take_drop_drop. lia.
  - symmetry. apply take_ge. rewrite length_drop. lia.
Qed.

Lemma clamp_bounds (n i : Z) : 0 <= n -> 0 <= clamp n i <= n.
Proof. intros Hn. unfold clamp. destruct (i <? 0) eqn:E; lia. Qed.

Lemma slice_length {A : Type} (l : list A) (a b : Z) :
  Z.of_nat (length (slice l a b)) =
  Z.max 0 (clamp (Z.of_nat (length l)) b - clamp (Z.of_nat (length l)) a).
Proof.
  unfold slice. rewrite length_take, length_drop.
  pose proof (clamp_bounds (Z.of_nat (length l)) a (Nat2Z.is_nonneg _)) as Ha.
  pose proof (clamp_bounds (Z.of_nat (length l)) b (Nat2Z.is_nonneg _)) as Hb.
  lia.
Qed.

(** Whatever the lengths, the three slices together are at least as long as
    the list. *)
Lemma slices_total_length {A : Type} (l : list A) (t v : Z) :
  Z.of_nat (length l) <=
  Z.of_nat (length (slice l 0 t)) + Z.of_nat (length (slice l t (t + v)))
  + Z.of_nat (length (slice l (t + v) (Z.of_nat (length l)))).
Proof.
  rewrite !slice_length.
  pose proof (clamp_bounds (Z.of_nat (length l)) t (Nat2Z.is_nonneg _)).
  pose proof (clamp_bounds (Z.of_nat (length l)) (t + v) (Nat2Z.is_nonneg _)).
  assert (Hz : clamp (Z.of_nat (length l)) 0 = 0) by (unfold clamp; simpl; lia).
  assert (Hn : clamp (Z.of_nat (length l)) (Z.of_nat (length l)) = Z.of_nat (length l))
    by (unfold clamp; destruct (Z.of_nat (length l) <? 0) eqn:E; lia).
  rewrite Hz, Hn. lia.
Qed.

(** ** Index expansion *)

Lemma elem_of_expand (P : Z) (I : list Z) (x : Z) :
  x ∈ expand P I <-> in_expansion P I x.
Proof.
  unfold expand, in_expansion. rewrite list_elem_of_In, in_flat_map. split.
  - intros (j & Hj & Hx). apply list_elem_of_In, elem_of_range in Hj.
    apply list_elem_of_In, list_elem_of_fmap in Hx. destruct Hx as (i & -> & Hi).
    exists i, j. auto.
  - intros (i & j & Hi & Hj & ->). exists j. split.
    + apply list_elem_of_In, elem_of_range, Hj.
    + apply list_elem_of_In, list_elem_of_fmap. exists i. auto.
Qed.

Lemma flat_map_length_const {A B : Type} (f : A -> list B) (l : list A) (k : nat) :
  (forall a, length (f a) = k) -> length (flat_map f l) = (length l * k)%nat.
Proof.
  intros Hf. induction l as [ | a l IH]; simpl; [reflexivity | ].
  rewrite length_app, Hf, IH. reflexivity.
Qed.

Lemma expand_length_nat (P : Z) (I : list Z) :
  length (expand P I) = (Z.to_nat P * length I)%nat.
Proof.
  unfold expand. rewrite (flat_map_length_const _ _ (length I)).
  - rewrite range_length. reflexivity.
  - intros j. apply length_map.
Qed.

Lemma expand_length (P : Z) (I : list Z) :
  0 <= P -> Z.of_nat (length (expand P I)) = Z.of_nat (length I) * P.
Proof. intros HP. rewrite expand_length_nat. lia. Qed.

(** [i * P + j] with [0 <= j < P] determines [i]. *)
Lemma expansion_injective (P i j i' j' : Z) :
  0 <= j < P -> 0 <= j' < P -> i * P + j = i' * P + j' -> i = i'.
Proof. intros Hj Hj' H. nia. Qed.

Lemma expand_disjoint (P : Z) (a b : list Z) :
  (forall i, i ∈ a -> i ∉ b) ->
  forall x, x ∈ expand P a -> x ∉ expand P b.
Proof.
  intros Hab x Ha Hb.
  apply elem_of_expand in Ha. destruct Ha as (i & j & Hi & Hj & ->).
  apply elem_of_expand in Hb. destruct Hb as (i' & j' & Hi' & Hj' & Hx).
  apply expansion_injective in Hx; [ | lia | lia ]. subst i'.
  exact (Hab i Hi Hi').
Qed.

(** ** The split *)

Lemma deref_alloc (h : heap) (d : SlidesDataset.t) :
  deref (h ++ [d]) (length h) = inr d.
Proof. unfold deref. rewrite list_lookup_middle by reflexivity. reflexivity. Qed.

Lemma setattr_alloc (h : heap) (d : SlidesDataset.t) (P : Z) :
  setattr_patch_per_slide (h ++ [d]) (length h) P =
  inr (h ++ [SlidesDataset.set_patch_per_slide d P]).
Proof.
  unfold setattr_patch_per_slide. rewrite deref_alloc, bind_inr_l.
  unfold mret, result_ret. f_equal.
  replace (length h) with (length h + 0)%nat at 1 by lia.
  rewrite insert_app_r. reflexivity.
Qed.

Lemma set_patch_per_slide_twice (d : SlidesDataset.t) (P Q : Z) :
  SlidesDataset.set_patch_per_slide (SlidesDataset.set_patch_per_slide d P) Q =
  SlidesDataset.set_patch_per_slide d Q.
Proof. reflexivity. Qed.

(** [expand_stage] on three partitions that share the dataset allocated
    last. *)
Lemma expand_stage_shared (h : heap) (d : SlidesDataset.t)
    (self : SlidesDataModule.t) (a b c : list Z) :
  let P := HParams.patch_per_slide (hparams self) in
  let r := length h in
  expand_stage
    {| Process.objects := h ++ [d];
       Process.self := set_partitions self (Some (Subset.mk r a))
                         (Some (Subset.mk r b)) (Some (Subset.mk r c)) |} =
  inr {| Process.objects := h ++ [SlidesDataset.set_patch_per_slide d P];
         Process.self := set_partitions self (Some (Subset.mk r (expand P a)))
                           (Some (Subset.mk r (expand P b)))
                           (Some (Subset.mk r (expand P c))) |}.
Proof.
  intros P r. unfold expand_stage. simpl. subst r.
  rewrite setattr_alloc, bind_inr_l.
  rewrite setattr_alloc, bind_inr_l.
  rewrite setattr_alloc, bind_inr_l.
  reflexivity.
Qed.

Section Split.

Variable Generator : Type.
Variable manual_seed : Z -> Generator.
Variable randperm : Z -> Generator -> list Z.
Variable SlidesDataset_init :
  string -> Z -> Z -> list Transform -> bool -> result SlidesDataset.t.

(** [randperm(n)] returns a permutation of [range(n)]. *)
Hypothesis randperm_perm :
  forall (n : Z) (g : Generator), 0 <= n -> Permutation (randperm n g) (range n).

Lemma random_split_three (h : heap) (d : SlidesDataset.t) (n t v : Z)
    (g : Generator) :
  Py.len (SlidesDataset.total_samples d) = inr n ->
  random_split Generator randperm (h ++ [d]) (length h) [t; v; n - t - v] g =
  inr [ Subset.mk (length h) (slice (randperm n g) 0 t);
        Subset.mk (length h) (slice (randperm n g) t (t + v));
        Subset.mk (length h) (slice (randperm n g) (t + v) n) ].
Proof.
  intros Hn. unfold random_split. rewrite deref_alloc, bind_inr_l, Hn, bind_inr_l.
  assert (Hs : Py.sum [t; v; n - t - v] = n) by (unfold Py.sum; simpl; lia).
  rewrite Hs, Z.eqb_refl. simpl. unfold mret, result_ret.
  repeat f_equal; lia.
Qed.

(** [split_stage] with [random_split] evaluated. *)
Lemma split_stage_eq (p : Process.t) :
  split_stage Generator manual_seed randperm SlidesDataset_init p =
  (d ← SlidesDataset_init (HParams.slides_file (hparams (Process.self p)))
         (HParams.crop_size (hparams (Process.self p)))
         (HParams.patch_size (hparams (Process.self p)))
         (transforms (Process.self p))
         (HParams.dino (hparams (Process.self p)));
   n ← Py.len (SlidesDataset.total_samples d);
   '(t, v, _) ← split_lengths
                  (HParams.train_val_test_split (hparams (Process.self p))) n;
   let a := length (Process.objects p) in
   let perm := randperm n (manual_seed 42) in
   mret {| Process.objects := Process.objects p ++ [d];
           Process.self :=
             set_partitions (Process.self p)
               (Some (Subset.mk a (slice perm 0 t)))
               (Some (Subset.mk a (slice perm t (t + v))))
               (Some (Subset.mk a (slice perm (t + v) n))) |}).
Proof.
  unfold split_stage.
  destruct (SlidesDataset_init _ _ _ _ _) as [e | d]; [reflexivity | ].
  rewrite !bind_inr_l. unfold alloc.
  destruct (Py.len (SlidesDataset.total_samples d)) as [e | n] eqn:Hn;
    [reflexivity | ].
  rewrite !bind_inr_l.
  destruct (split_lengths _ n) as [e | [[t v] te]] eqn:Hl; [reflexivity | ].
  rewrite !bind_inr_l.
  apply split_lengths_inr in Hl. destruct Hl as (_ & _ & ->).
  rewrite (random_split_three _ _ _ _ _ _ Hn). reflexivity.
Qed.

Lemma covers_once_disjoint (n : Z) (a b c : list Z) :
  covers_once n a b c ->
  disjoint3 a b c /\
  (forall i, i ∈ a \/ i ∈ b \/ i ∈ c <-> 0 <= i < n).
Proof.
  unfold covers_once. intros Hp.
  assert (Hnd : NoDup (a ++ b ++ c)) by (rewrite Hp; apply NoDup_range).
  apply NoDup_app in Hnd. destruct Hnd as (_ & Habc & Hbc).
  apply NoDup_app in Hbc. destruct Hbc as (_ & Hbc & _).
  split; [ repeat split | ].
  - intros i Ha Hb. apply (Habc i Ha). apply elem_of_app. auto.
  - intros i Ha Hc. apply (Habc i Ha). apply elem_of_app. auto.
  - intros i Hb Hc. apply (Hbc i Hb Hc).
  - intros i. rewrite <- elem_of_range, <- Hp, !elem_of_app. reflexivity.
Qed.

(** The slices [random_split] cuts, for lengths that are not negative. *)
Lemma slices_cover_once (n t v : Z) (g : Generator) :
  0 <= n -> 0 <= t -> 0 <= v ->
  covers_once n (slice (randperm n g) 0 t) (slice (randperm n g) t (t + v))
    (slice (randperm n g) (t + v) n).
Proof.
  intros Hn Ht Hv.
  set (perm := randperm n g).
  assert (Hp : Permutation perm (range n)) by (apply randperm_perm; lia).
  assert (Hlen : Z.of_nat (length perm) = n).
  { rewrite (Permutation_length Hp), range_length. lia. }
  unfold covers_once. rewrite <- Hlen at 1.
  rewrite (slices_cover perm t v Ht Hv). exact Hp.
Qed.

(** C3: after the split and before the expansion the three partitions hold
    every index of [range(total_samples)] exactly once: they are pairwise
    disjoint and their union is [{0, ..., total_samples - 1}]. *)
Theorem split_stage_partitions (p p' : Process.t) :
  ratios_nonneg (HParams.train_val_test_split (hparams (Process.self p))) ->
  split_stage Generator manual_seed randperm SlidesDataset_init p = inr p' ->
  exists (tr va te : Subset.t) (d : SlidesDataset.t),
    data_train (Process.self p') = Some tr /\
    data_val (Process.self p') = Some va /\
    data_test (Process.self p') = Some te /\
    Process.objects p' !! Subset.dataset tr = Some d /\
    covers_once (SlidesDataset.total_samples d)
      (Subset.indices tr) (Subset.indices va) (Subset.indices te) /\
    disjoint3 (Subset.indices tr) (Subset.indices va) (Subset.indices te) /\
    (forall i, i ∈ Subset.indices tr \/ i ∈ Subset.indices va \/ i ∈ Subset.indices te
               <-> 0 <= i < SlidesDataset.total_samples d).
Proof.
  intros Hr H. rewrite split_stage_eq in H.
  apply bind_inr in H. destruct H as (d & _ & H).
  apply bind_inr in H. destruct H as (n & Hn & H).
  apply bind_inr in H. destruct H as ([[t v] te] & Hl & H).
  apply len_inr in Hn. destruct Hn as [-> Hn].
  destruct (split_lengths_nonneg _ _ _ _ _ Hr Hl) as [Ht Hv].
  injection H; intros <-; clear H. simpl.
  pose proof (slices_cover_once (SlidesDataset.total_samples d) t v
                (manual_seed 42) (proj1 Hn) Ht Hv) as Hc.
  eexists _, _, _, d. repeat (split; [reflexivity | ]).
  split; [ apply list_lookup_middle; reflexivity | ].
  split; [ exact Hc | ].
  apply covers_once_disjoint in Hc. exact Hc.
Qed.

(** [setup] on an unpopulated module, with both stages evaluated. *)
Lemma setup_eq (stage : option string) (p : Process.t) :
  unpopulated (Process.self p) = true ->
  setup Generator manual_seed randperm SlidesDataset_init stage p =
  (d ← SlidesDataset_init (HParams.slides_file (hparams (Process.self p)))
         (HParams.crop_size (hparams (Process.self p)))
         (HParams.patch_size (hparams (Process.self p)))
         (transforms (Process.self p))
         (HParams.dino (hparams (Process.self p)));
   n ← Py.len (SlidesDataset.total_samples d);
   '(t, v, _) ← split_lengths
                  (HParams.train_val_test_split (hparams (Process.self p))) n;
   mret (computed p d (randperm n (manual_seed 42)) t v)).
Proof.
  intros Hu. unfold setup. rewrite Hu, split_stage_eq.
  destruct (SlidesDataset_init _ _ _ _ _) as [e | d]; [reflexivity | ].
  rewrite !bind_inr_l.
  destruct (Py.len (SlidesDataset.total_samples d)) as [e | n] eqn:Hn;
    [reflexivity | ].
  rewrite !bind_inr_l.
  destruct (split_lengths _ n) as [e | [[t v] te]]; [reflexivity | ].
  rewrite !bind_inr_l. cbv zeta.
  unfold mret at 1, result_ret at 1. rewrite bind_inr_l.
  apply len_inr in Hn. destruct Hn as [-> _].
  apply expand_stage_shared.
Qed.

Lemma setup_inv (stage : option string) (p p' : Process.t) :
  unpopulated (Process.self p) = true ->
  setup Generator manual_seed randperm SlidesDataset_init stage p = inr p' ->
  exists (d : SlidesDataset.t) (t v te : Z),
    SlidesDataset_init (HParams.slides_file (hparams (Process.self p)))
      (HParams.crop_size (hparams (Process.self p)))
      (HParams.patch_size (hparams (Process.self p)))
      (transforms (Process.self p))
      (HParams.dino (hparams (Process.self p))) = inr d /\
    0 <= SlidesDataset.total_samples d < 2 ^ 63 /\
    split_lengths (HParams.train_val_test_split (hparams (Process.self p)))
      (SlidesDataset.total_samples d) = inr (t, v, te) /\
    p' = computed p d
           (randperm (SlidesDataset.total_samples d) (manual_seed 42)) t v.
Proof.
  intros Hu H. rewrite (setup_eq stage p Hu) in H.
  apply bind_inr in H. destruct H as (d & Hd & H).
  apply bind_inr in H. destruct H as (n & Hn & H).
  apply bind_inr in H. destruct H as ([[t v] te] & Hl & H).
  apply len_inr in Hn. destruct Hn as [-> Hn].
  injection H; intros <-. exists d, t, v, te. auto.
Qed.

Lemma expand_stage_inv (p p' : Process.t) (k : Part) :
  expand_stage p = inr p' ->
  exists s : Subset.t,
    partition k (Process.self p) = Some s /\
    partition k (Process.self p') =
      Some (Subset.set_indices s
              (expand (HParams.patch_per_slide (hparams (Process.self p)))
                 (Subset.indices s))).
Proof.
  unfold expand_stage. intros H.
  apply bind_inr in H. destruct H as (tr & Htr & H).
  apply bind_inr in H. destruct H as (h1 & _ & H).
  apply bind_inr in H. destruct H as (va & Hva & H).
  apply bind_inr in H. destruct H as (h2 & _ & H).
  apply bind_inr in H. destruct H as (te & Hte & H).
  apply bind_inr in H. destruct H as (h3 & _ & H).
  injection H; intros <-; clear H.
  unfold the_partition in Htr, Hva, Hte.
  destruct (data_train (Process.self p)) as [tr0 | ] eqn:Etr; [ | discriminate ].
  destruct (data_val (Process.self p)) as [va0 | ] eqn:Eva; [ | discriminate ].
  destruct (data_test (Process.self p)) as [te0 | ] eqn:Ete; [ | discriminate ].
  injection Htr; injection Hva; injection Hte; intros; subst.
  destruct k; simpl; eexists; split; eauto.
Qed.

Lemma split_stage_hparams (p p1 : Process.t) :
  split_stage Generator manual_seed randperm SlidesDataset_init p = inr p1 ->
  hparams (Process.self p1) = hparams (Process.self p).
Proof.
  rewrite split_stage_eq. intros H.
  apply bind_inr in H. destruct H as (d & _ & H).
  apply bind_inr in H. destruct H as (n & _ & H).
  apply bind_inr in H. destruct H as ([[t v] te] & _ & H).
  injection H; intros <-. reflexivity.
Qed.

(** C4: each partition's expanded index list holds exactly the indices
    [i * P + j] for [i] in the list before expansion and [j] in [range(P)],
    and is [P] times as long. *)
Theorem setup_expanded_indices (stage : option string) (p p' : Process.t) :
  0 <= HParams.patch_per_slide (hparams (Process.self p)) ->
  unpopulated (Process.self p) = true ->
  setup Generator manual_seed randperm SlidesDataset_init stage p = inr p' ->
  exists p1 : Process.t,
    split_stage Generator manual_seed randperm SlidesDataset_init p = inr p1 /\
    forall k : Part, exists s s' : Subset.t,
      partition k (Process.self p1) = Some s /\
      partition k (Process.self p') = Some s' /\
      (forall x, x ∈ Subset.indices s' <->
                 in_expansion (HParams.patch_per_slide (hparams (Process.self p)))
                   (Subset.indices s) x) /\
      Z.of_nat (length (Subset.indices s')) =
      Z.of_nat (length (Subset.indices s))
      * HParams.patch_per_slide (hparams (Process.self p)).
Proof.
  intros HP Hu H. unfold setup in H. rewrite Hu in H.
  apply bind_inr in H. destruct H as (p1 & H1 & H2).
  exists p1. split; [exact H1 | ]. intros k.
  destruct (expand_stage_inv p1 p' k H2) as (s & Hs & Hs').
  rewrite (split_stage_hparams p p1 H1) in Hs'.
  exists s, (Subset.set_indices s
               (expand (HParams.patch_per_slide (hparams (Process.self p)))
                  (Subset.indices s))).
  repeat split; auto; simpl.
  - apply elem_of_expand.
  - apply elem_of_expand.
  - apply expand_length, HP.
Qed.

Lemma expand_disjoint3 (P : Z) (a b c : list Z) :
  disjoint3 a b c -> disjoint3 (expand P a) (expand P b) (expand P c).
Proof.
  intros (Hab & Hac & Hbc). repeat split; apply expand_disjoint; assumption.
Qed.

(** C5: after [setup] has computed the split, the three expanded index
    lists are pairwise disjoint, for every replication factor. *)
Theorem setup_expanded_disjoint (stage : option string) (p p' : Process.t) :
  ratios_nonneg (HParams.train_val_test_split (hparams (Process.self p))) ->
  unpopulated (Process.self p) = true ->
  setup Generator manual_seed randperm SlidesDataset_init stage p = inr p' ->
  exists tr va te : Subset.t,
    data_train (Process.self p') = Some tr /\
    data_val (Process.self p') = Some va /\
    data_test (Process.self p') = Some te /\
    disjoint3 (Subset.indices tr) (Subset.indices va) (Subset.indices te).
Proof.
  intros Hr Hu H.
  destruct (setup_inv stage p p' Hu H) as (d & t & v & te & _ & Hn & Hl & ->).
  destruct (split_lengths_nonneg _ _ _ _ _ Hr Hl) as [Ht Hv].
  unfold computed. simpl. eexists _, _, _.
  repeat (split; [reflexivity | ]). simpl.
  apply expand_disjoint3.
  apply (covers_once_disjoint (SlidesDataset.total_samples d)).
  apply slices_cover_once; lia.
Qed.

Lemma some_populated_iff (self : SlidesDataModule.t) :
  some_populated self <-> unpopulated self = false.
Proof.
  unfold some_populated, unpopulated.
  destruct (truthy Subset.len (data_train self));
    destruct (truthy Subset.len (data_val self));
    destruct (truthy Subset.len (data_test self)); simpl;
    intuition discriminate.
Qed.

Lemma setup_populated (stage : option string) (p : Process.t) :
  unpopulated (Process.self p) = false ->
  setup Generator manual_seed randperm SlidesDataset_init stage p = inr p.
Proof. intros Hu. unfold setup. rewrite Hu. reflexivity. Qed.

(** C7: when at least one of the three partition fields is populated,
    [setup] returns at once and changes nothing. *)
Theorem setup_guard (stage : option string) (p : Process.t) :
  some_populated (Process.self p) ->
  setup Generator manual_seed randperm SlidesDataset_init stage p = inr p.
Proof.
  intros Hp. apply some_populated_iff in Hp.
  unfold setup. destruct (unpopulated (Process.self p)); [discriminate | ].
  reflexivity.
Qed.

Lemma truthy_expand (a : nat) (P : Z) (l : list Z) :
  1 <= P -> l <> [] ->
  truthy Subset.len (Some (Subset.mk a (expand P l))) = true.
Proof.
  intros HP Hl. unfold truthy, Subset.len. simpl.
  rewrite expand_length_nat. destruct l as [ | x l]; [contradiction | ].
  simpl length. apply negb_true_iff, Nat.eqb_neq. nia.
Qed.

(** With a non-empty dataset and a positive replication factor the computed
    state has a populated partition. *)
Lemma computed_populated (p : Process.t) (d : SlidesDataset.t) (t v : Z)
    (g : Generator) :
  1 <= HParams.patch_per_slide (hparams (Process.self p)) ->
  1 <= SlidesDataset.total_samples d ->
  some_populated
    (Process.self (computed p d (randperm (SlidesDataset.total_samples d) g) t v)).
Proof.
  intros HP Hn.
  set (n := SlidesDataset.total_samples d) in *.
  set (perm := randperm n g).
  assert (Hp : Permutation perm (range n)) by (apply randperm_perm; lia).
  assert (Hlen : Z.of_nat (length perm) = n).
  { rewrite (Permutation_length Hp), range_length. lia. }
  pose proof (slices_total_length perm t v) as Htot. rewrite Hlen in Htot.
  unfold some_populated, computed. simpl. fold n. fold perm.
  destruct (slice perm 0 t) as [ | x a] eqn:Ea.
  - destruct (slice perm t (t + v)) as [ | y b] eqn:Eb.
    + destruct (slice perm (t + v) n) as [ | z c] eqn:Ec.
      * simpl in Htot. lia.
      * right; right. apply truthy_expand; [exact HP | discriminate].
    + right; left. apply truthy_expand; [exact HP | discriminate].
  - left. apply truthy_expand; [exact HP | discriminate].
Qed.

(** A second call returns, with the index lists of the first; behind the
    guard it returns the state it was given. *)
Lemma setup_again (stage1 stage2 : option string) (p p1 : Process.t) :
  setup Generator manual_seed randperm SlidesDataset_init stage1 p = inr p1 ->
  exists p2 : Process.t,
    setup Generator manual_seed randperm SlidesDataset_init stage2 p1 = inr p2 /\
    (forall k : Part,
       partition_indices k (Process.self p2) = partition_indices k (Process.self p1)) /\
    (some_populated (Process.self p1) -> p2 = p1).
Proof.
  intros H. destruct (unpopulated (Process.self p1)) eqn:Hu1.
  - destruct (unpopulated (Process.self p)) eqn:Hu.
    + destruct (setup_inv stage1 p p1 Hu H) as (d & t & v & te & Hd & Hn & Hl & ->).
      set (perm := randperm (SlidesDataset.total_samples d) (manual_seed 42)) in *.
      exists (computed (computed p d perm t v) d perm t v). split.
      * rewrite (setup_eq stage2 _ Hu1). simpl.
        rewrite Hd, bind_inr_l.
        assert (Hlen : Py.len (SlidesDataset.total_samples d)
                       = inr (SlidesDataset.total_samples d))
          by (apply len_inr; auto).
        rewrite Hlen, bind_inr_l, Hl, bind_inr_l. reflexivity.
      * split; [ intros k; destruct k; reflexivity | ].
        intros Hp. apply some_populated_iff in Hp. congruence.
    + rewrite (setup_populated stage1 p Hu) in H. injection H; intros <-.
      congruence.
  - exists p1. split; [ apply setup_populated, Hu1 | ]. split; reflexivity.
Qed.

(** C6: a second call of [setup], with any stage, succeeds and leaves the
    index lists of the three partitions as the first call left them; once a
    partition is populated, which a non-empty dataset and a positive
    replication factor ensure, the guard returns at once and the whole state,
    the dataset objects included, is the one the first call left. *)
Theorem setup_idempotent (stage1 stage2 : option string) (p p1 : Process.t) :
  setup Generator manual_seed randperm SlidesDataset_init stage1 p = inr p1 ->
  exists p2 : Process.t,
    setup Generator manual_seed randperm SlidesDataset_init stage2 p1 = inr p2 /\
    (forall k : Part,
       partition_indices k (Process.self p2) = partition_indices k (Process.self p1)) /\
    (1 <= HParams.patch_per_slide (hparams (Process.self p)) ->
     (forall d : SlidesDataset.t,
        SlidesDataset_init (HParams.slides_file (hparams (Process.self p)))
          (HParams.crop_size (hparams (Process.self p)))
          (HParams.patch_size (hparams (Process.self p)))
          (transforms (Process.self p))
          (HParams.dino (hparams (Process.self p))) = inr d ->
        1 <= SlidesDataset.total_samples d) ->
     some_populated (Process.self p1)) /\
    (some_populated (Process.self p1) -> p2 = p1).
Proof.
  intros H.
  destruct (setup_again stage1 stage2 p p1 H) as (p2 & H2 & Hidx & Hsame).
  exists p2. repeat split; try assumption.
  intros HP Hne. destruct (unpopulated (Process.self p)) eqn:Hu.
  - destruct (setup_inv stage1 p p1 Hu H) as (d & t & v & te & Hd & _ & _ & ->).
    apply computed_populated; [exact HP | exact (Hne d Hd)].
  - rewrite (setup_populated stage1 p Hu) in H. injection H; intros <-.
    apply some_populated_iff, Hu.
Qed.

(** C10: with ten samples and the ratios [(0.5, 0.3, 0.2)] the lengths are
    5, 3 and 2, and with [patch_per_slide = 2] the expanded train list has
    length 10. *)
Theorem setup_ten_samples (stage : option string) (p : Process.t)
    (d : SlidesDataset.t) :
  unpopulated (Process.self p) = true ->
  HParams.train_val_test_split (hparams (Process.self p)) = (0.5, 0.3, 0.2)%float ->
  HParams.patch_per_slide (hparams (Process.self p)) = 2 ->
  SlidesDataset_init (HParams.slides_file (hparams (Process.self p)))
    (HParams.crop_size (hparams (Process.self p)))
    (HParams.patch_size (hparams (Process.self p)))
    (transforms (Process.self p))
    (HParams.dino (hparams (Process.self p))) = inr d ->
  SlidesDataset.total_samples d = 10 ->
  split_lengths (HParams.train_val_test_split (hparams (Process.self p)))
    (SlidesDataset.total_samples d) = inr (5, 3, 2) /\
  exists (p' : Process.t) (tr : Subset.t),
    setup Generator manual_seed randperm SlidesDataset_init stage p = inr p' /\
    data_train (Process.self p') = Some tr /\
    length (Subset.indices tr) = 10%nat.
Proof.
  intros Hu Hr HP Hd Hn.
  assert (Hl : split_lengths (HParams.train_val_test_split (hparams (Process.self p)))
                 (SlidesDataset.total_samples d) = inr (5, 3, 2))
    by (rewrite Hr, Hn; reflexivity).
  split; [exact Hl | ].
  rewrite (setup_eq stage p Hu), Hd, bind_inr_l.
  assert (Hlen : Py.len (SlidesDataset.total_samples d)
                 = inr (SlidesDataset.total_samples d))
    by (apply len_inr; rewrite Hn; split; [reflexivity | lia]).
  rewrite Hlen, bind_inr_l, Hl, bind_inr_l.
  eexists _, _. split; [reflexivity | ]. split; [reflexivity | ].
  simpl. rewrite HP, expand_length_nat, Hn.
  set (perm := randperm 10 (manual_seed 42)).
  assert (Hp : Permutation perm (range 10)) by (apply randperm_perm; lia).
  assert (Hperm : Z.of_nat (length perm) = 10).
  { rewrite (Permutation_length Hp), range_length. lia. }
  pose proof (slice_length perm 0 5) as Hs. rewrite Hperm in Hs.
  change (clamp 10 5) with 5 in Hs. change (clamp 10 0) with 0 in Hs.
  lia.
Qed.

End Split.

(** ** Determinism across processes *)

(** C2: two initialisations with the same configuration and the same
    [total_samples] produce the same three index lists, because the
    permutation is drawn from a generator seeded with 42: a repeated call in
    the same process keeps the lists of the first, and a run in a second
    process (other objects on its heap, its own reader of the slides file,
    another stage) returns with the same lists. *)
Theorem setup_deterministic (Generator : Type) (manual_seed : Z -> Generator)
    (randperm : Z -> Generator -> list Z)
    (init1 init2 : string -> Z -> Z -> list Transform -> bool -> result SlidesDataset.t)
    (stage1 stage1' stage2 : option string) (p1 p2 q1 : Process.t)
    (d1 d2 : SlidesDataset.t) :
  hparams (Process.self p1) = hparams (Process.self p2) ->
  unpopulated (Process.self p1) = true ->
  unpopulated (Process.self p2) = true ->
  init1 (HParams.slides_file (hparams (Process.self p1)))
    (HParams.crop_size (hparams (Process.self p1)))
    (HParams.patch_size (hparams (Process.self p1)))
    (transforms (Process.self p1))
    (HParams.dino (hparams (Process.self p1))) = inr d1 ->
  init2 (HParams.slides_file (hparams (Process.self p2)))
    (HParams.crop_size (hparams (Process.self p2)))
    (HParams.patch_size (hparams (Process.self p2)))
    (transforms (Process.self p2))
    (HParams.dino (hparams (Process.self p2))) = inr d2 ->
  SlidesDataset.total_samples d1 = SlidesDataset.total_samples d2 ->
  setup Generator manual_seed randperm init1 stage1 p1 = inr q1 ->
  (exists q1' : Process.t,
     setup Generator manual_seed randperm init1 stage1' q1 = inr q1' /\
     forall k : Part,
       partition_indices k (Process.self q1') = partition_indices k (Process.self q1)) /\
  (exists q2 : Process.t,
     setup Generator manual_seed randperm init2 stage2 p2 = inr q2 /\
     forall k : Part,
       partition_indices k (Process.self q2) = partition_indices k (Process.self q1)).
Proof.
  intros Hhp Hu1 Hu2 Hd1 Hd2 Hn H. split.
  - destruct (setup_again _ _ _ _ stage1 stage1' p1 q1 H) as (q & Hq & Hidx & _).
    exists q. auto.
  - rewrite (setup_eq _ _ _ _ stage1 p1 Hu1), Hd1, bind_inr_l in H.
    apply bind_inr in H. destruct H as (n & Hlen & H).
    apply bind_inr in H. destruct H as ([[t v] te] & Hl & H).
    injection H; intros <-; clear H.
    rewrite (setup_eq _ _ _ _ stage2 p2 Hu2), Hd2, bind_inr_l.
    rewrite <- Hn, Hlen, bind_inr_l, <- Hhp, Hl, bind_inr_l.
    eexists. split; [reflexivity | ].
    intros k. unfold computed, partition_indices.
    rewrite <- Hhp, <- Hn. destruct k; reflexivity.
Qed.

(** ** Batch endpoints and checkpoint hooks *)

Lemma fetch_from (pre l : list Z) :
  omap (fun k => (pre ++ l) !! Z.to_nat k)
       (map Z.of_nat (seq (length pre) (length l))) = l.
Proof.
  revert pre. induction l as [ | x l IH]; intros pre; [reflexivity | ].
  simpl. rewrite Nat2Z.id, list_lookup_middle by reflexivity. simpl.
  f_equal. specialize (IH (pre ++ [x])).
  rewrite <- app_assoc, length_app, Nat.add_1_r in IH. exact IH.
Qed.

Lemma sequential_fetch_indices (s : Subset.t) :
  sequential_fetch s = Subset.indices s.
Proof.
  unfold sequential_fetch, sequential_positions, Subset.len, range.
  rewrite Nat2Z.id. exact (fetch_from [] (Subset.indices s)).
Qed.

(** C8: every endpoint is built over its own partition with the configured
    [batch_size], [num_workers] and [pin_memory]; only the train endpoint
    shuffles, the validation and test endpoints draw from the sequential
    sampler, which fetches a partition's indices in their order. *)
Theorem dataloaders_configuration (self : SlidesDataModule.t) :
  let hp := hparams self in
  let loaders := [train_dataloader self; val_dataloader self; test_dataloader self] in
  DataLoader.dataset <$> loaders = [data_train self; data_val self; data_test self] /\
  Forall (fun dl => DataLoader.batch_size dl = HParams.batch_size hp /\
                    DataLoader.num_workers dl = HParams.num_workers hp /\
                    DataLoader.pin_memory dl = HParams.pin_memory hp) loaders /\
  DataLoader.shuffle <$> loaders = [true; false; false] /\
  sampler_of <$> loaders = [RandomSampler; SequentialSampler; SequentialSampler] /\
  (forall s : Subset.t, sequential_fetch s = Subset.indices s).
Proof.
  intros hp loaders. subst hp loaders.
  split; [reflexivity | ]. split.
  - repeat constructor.
  - split; [reflexivity | ]. split; [reflexivity | ].
    apply sequential_fetch_indices.
Qed.

(** C9: [state_dict] returns the empty mapping; [load_state_dict] accepts any
    mapping, does not raise, and leaves the process, hence the partitions and
    the endpoints built from them, as it was. *)
Theorem checkpoint_hooks (state : gmap string value) (p : Process.t) :
  state_dict (Process.self p) = ∅ /\
  exists p' : Process.t,
    load_state_dict state p = inr p' /\
    p' = p /\
    (forall k : Part, partition k (Process.self p') = partition k (Process.self p)) /\
    train_dataloader (Process.self p') = train_dataloader (Process.self p) /\
    val_dataloader (Process.self p') = val_dataloader (Process.self p) /\
    test_dataloader (Process.self p') = test_dataloader (Process.self p).
Proof.
  split.
  - unfold state_dict. reflexivity.
  - exists p. unfold load_state_dict. repeat split; reflexivity.
Qed.

(** ** The properties on the demo instance *)

Lemma rotate_perm_perm (n seed : Z) :
  0 <= n -> Permutation (rotate_perm n seed) (range n).
Proof.
  intros _. unfold rotate_perm. cbv zeta.
  rewrite Permutation_app_comm, take_drop. reflexivity.
Qed.

Lemma split_lengths_floor_witness :
  ratios_nonneg (0.5, 0.3, 0.2)%float /\
  (split_lengths (0.5, 0.3, 0.2)%float 10 = inr (5, 3, 2) <->
     Py.floor (0.5 * float_of_len 10)%float = Some 5 /\
     Py.floor (0.3 * float_of_len 10)%float = Some 3 /\
     2 = 10 - 5 - 3) /\
  (split_lengths (0.5, 0.3, 0.2)%float 10 = inr (5, 3, 2) -> 5 + 3 + 2 = 10).
Proof.
  assert (Hr : ratios_nonneg (0.5, 0.3, 0.2)%float) by (split; reflexivity).
  split; [exact Hr | ].
  exact (split_lengths_floor (0.5, 0.3, 0.2)%float 10 5 3 2 Hr).
Defined.

Lemma split_stage_partitions_witness :
  ratios_nonneg (HParams.train_val_test_split two_patches) /\
  demo_split_stage (fresh two_patches) = inr after_split /\
  exists (tr va te : Subset.t) (d : SlidesDataset.t),
    data_train (Process.self after_split) = Some tr /\
    data_val (Process.self after_split) = Some va /\
    data_test (Process.self after_split) = Some te /\
    Process.objects after_split !! Subset.dataset tr = Some d /\
    covers_once (SlidesDataset.total_samples d)
      (Subset.indices tr) (Subset.indices va) (Subset.indices te) /\
    disjoint3 (Subset.indices tr) (Subset.indices va) (Subset.indices te) /\
    (forall i, i ∈ Subset.indices tr \/ i ∈ Subset.indices va \/ i ∈ Subset.indices te
               <-> 0 <= i < SlidesDataset.total_samples d).
Proof.
  assert (Hr : ratios_nonneg (HParams.train_val_test_split two_patches))
    by (split; reflexivity).
  assert (Hs : demo_split_stage (fresh two_patches) = inr after_split)
    by (vm_compute; reflexivity).
  split; [exact Hr | ]. split; [exact Hs | ].
  exact (split_stage_partitions Z (fun seed => seed) rotate_perm ten_slides
           rotate_perm_perm (fresh two_patches) after_split Hr Hs).
Defined.

Lemma setup_expanded_indices_witness :
  0 <= HParams.patch_per_slide two_patches /\
  unpopulated (init two_patches) = true /\
  demo_setup None (fresh two_patches) = inr after_setup /\
  exists p1 : Process.t,
    demo_split_stage (fresh two_patches) = inr p1 /\
    forall k : Part, exists s s' : Subset.t,
      partition k (Process.self p1) = Some s /\
      partition k (Process.self after_setup) = Some s' /\
      (forall x, x ∈ Subset.indices s' <-> in_expansion 2 (Subset.indices s) x) /\
      Z.of_nat (length (Subset.indices s')) = Z.of_nat (length (Subset.indices s)) * 2.
Proof.
  assert (HP : 0 <= HParams.patch_per_slide two_patches) by (simpl; lia).
  assert (Hs : demo_setup None (fresh two_patches) = inr after_setup)
    by (vm_compute; reflexivity).
  split; [exact HP | ]. split; [reflexivity | ]. split; [exact Hs | ].
  exact (setup_expanded_indices Z (fun seed => seed) rotate_perm ten_slides
           None (fresh two_patches) after_setup HP eq_refl Hs).
Defined.

Lemma setup_expanded_disjoint_witness :
  ratios_nonneg (HParams.train_val_test_split two_patches) /\
  unpopulated (init two_patches) = true /\
  demo_setup None (fresh two_patches) = inr after_setup /\
  exists tr va te : Subset.t,
    data_train (Process.self after_setup) = Some tr /\
    data_val (Process.self after_setup) = Some va /\
    data_test (Process.self after_setup) = Some te /\
    disjoint3 (Subset.indices tr) (Subset.indices va) (Subset.indices te).
Proof.
  assert (Hr : ratios_nonneg (HParams.train_val_test_split two_patches))
    by (split; reflexivity).
  assert (Hs : demo_setup None (fresh two_patches) = inr after_setup)
    by (vm_compute; reflexivity).
  split; [exact Hr | ]. split; [reflexivity | ]. split; [exact Hs | ].
  exact (setup_expanded_disjoint Z (fun seed => seed) rotate_perm ten_slides
           rotate_perm_perm None (fresh two_patches) after_setup Hr eq_refl Hs).
Defined.

Lemma setup_guard_witness :
  some_populated (Process.self after_setup) /\
  demo_setup (Some "fit") after_setup = inr after_setup.
Proof.
  assert (Hp : some_populated (Process.self after_setup)) by (left; reflexivity).
  split; [exact Hp | ].
  exact (setup_guard Z (fun seed => seed) rotate_perm ten_slides (Some "fit")
           after_setup Hp).
Defined.

Lemma setup_idempotent_witness :
  demo_setup (Some "fit") (fresh two_patches) = inr after_setup /\
  exists p2 : Process.t,
    demo_setup (Some "test") after_setup = inr p2 /\
    (forall k : Part,
       partition_indices k (Process.self p2)
       = partition_indices k (Process.self after_setup)) /\
    (1 <= 2 ->
     (forall d : SlidesDataset.t,
        ten_slides "data/slides.json" 300 224 [ToTensor] false = inr d ->
        1 <= SlidesDataset.total_samples d) ->
     some_populated (Process.self after_setup)) /\
    (some_populated (Process.self after_setup) -> p2 = after_setup).
Proof.
  assert (Hs : demo_setup (Some "fit") (fresh two_patches) = inr after_setup)
    by (vm_compute; reflexivity).
  split; [exact Hs | ].
  exact (setup_idempotent Z (fun seed => seed) rotate_perm ten_slides
           rotate_perm_perm (Some "fit") (Some "test") (fresh two_patches)
           after_setup Hs).
Defined.

Lemma setup_ten_samples_witness :
  unpopulated (init two_patches) = true /\
  split_lengths (0.5, 0.3, 0.2)%float 10 = inr (5, 3, 2) /\
  exists (p' : Process.t) (tr : Subset.t),
    demo_setup None (fresh two_patches) = inr p' /\
    data_train (Process.self p') = Some tr /\
    length (Subset.indices tr) = 10%nat.
Proof.
  split; [reflexivity | ].
  exact (setup_ten_samples Z (fun seed => seed) rotate_perm ten_slides
           rotate_perm_perm None (fresh two_patches)
           {| SlidesDataset.total_samples := 10; SlidesDataset.patch_per_slide := 1 |}
           eq_refl eq_refl eq_refl eq_refl eq_refl).
Defined.

Lemma setup_deterministic_witness :
  hparams (Process.self (fresh two_patches))
  = hparams (Process.self (elsewhere two_patches)) /\
  demo_setup (Some "fit") (fresh two_patches) = inr after_setup /\
  (exists q1' : Process.t,
     demo_setup (Some "validate") after_setup = inr q1' /\
     forall k : Part,
       partition_indices k (Process.self q1')
       = partition_indices k (Process.self after_setup)) /\
  (exists q2 : Process.t,
     setup Z (fun seed => seed) rotate_perm ten_slides_elsewhere (Some "test")
       (elsewhere two_patches) = inr q2 /\
     forall k : Part,
       partition_indices k (Process.self q2)
       = partition_indices k (Process.self after_setup)).
Proof.
  assert (Hs : demo_setup (Some "fit") (fresh two_patches) = inr after_setup)
    by (vm_compute; reflexivity).
  split; [reflexivity | ]. split; [exact Hs | ].
  exact (setup_deterministic Z (fun seed => seed) rotate_perm ten_slides
           ten_slides_elsewhere (Some "fit") (Some "validate") (Some "test")
           (fresh two_patches) (elsewhere two_patches) after_setup
           {| SlidesDataset.total_samples := 10; SlidesDataset.patch_per_slide := 1 |}
           {| SlidesDataset.total_samples := 10; SlidesDataset.patch_per_slide := 4 |}
           eq_refl eq_refl eq_refl eq_refl eq_refl eq_refl Hs).
Defined.

(** ** Evaluations *)

Example int_truncates :
  Py.int (-1.5)%float = inr (-1) /\ Py.floor (-1.5)%float = Some (-2).
Proof. split; reflexivity. Qed.

Example int_of_rounded_product :
  Py.int (0.29 * float_of_len 100)%float = inr 28 /\
  Py.int (0.3 * float_of_len 10)%float = inr 3.
Proof. split; reflexivity. Qed.

Example slice_bounds :
  slice [10; 11; 12; 13; 14] (-3) (-1) = [12; 13] /\
  slice [10; 11; 12] 2 7 = [12] /\
  slice [10; 11; 12] 5 2 = [].
Proof. repeat split; reflexivity. Qed.

Example expand_order : expand 2 [2; 3; 4] = [4; 6; 8; 5; 7; 9].
Proof. reflexivity. Qed.

Example load_state_dict_anything :
  load_state_dict {[ "anything" := VInt 1 ]} after_setup = inr after_setup.
Proof. reflexivity. Qed.

(** On an empty dataset no partition is populated after [setup]: the next
    call builds the dataset again and leaves the same, empty, index lists. *)
Example setup_empty_dataset :
  setup Z (fun seed => seed) rotate_perm no_slides None (fresh two_patches)
  = inr (after_empty_setup 1) /\
  setup Z (fun seed => seed) rotate_perm no_slides None (after_empty_setup 1)
  = inr (after_empty_setup 2).
Proof. split; vm_compute; reflexivity. Qed.

(** * Further behaviour of the module *)

(** ** Truncation of the counts *)

Lemma quot_div_bounds (a b : Z) :
  0 < b -> a / b <= a ÷ b <= a / b + 1 /\ (0 <= a / b -> a ÷ b = a / b).
Proof.
  intros Hb.
  pose proof (Z.div_mod a b ltac:(lia)) as Hd.
  pose proof (Z.mod_pos_bound a b Hb) as Hm.
  pose proof (Z.quot_rem' a b) as Hq.
  destruct (Z_le_gt_dec 0 a) as [Ha | Ha].
  - rewrite Z.quot_div_nonneg by lia. lia.
  - pose proof (Z.rem_bound_pos_neg a b Hb ltac:(lia)) as Hr.
    set (q := a / b) in *. set (q' := a ÷ b) in *.
    set (r := a mod b) in *. set (r' := Z.rem a b) in *.
    assert (Hdiff : b * (q' - q) = r - r') by lia.
    assert (Hq0 : q < 0) by nia.
    assert (H1 : 0 <= q' - q) by nia.
    assert (H2 : q' - q < 2) by nia.
    lia.
Qed.

Lemma int_of_SF_bounds (x : spec_float) (t : Z) :
  int_of_SF x = inr t ->
  exists q : Z, floor_of_SF x = Some q /\ q <= t <= q + 1 /\ (0 <= q -> t = q).
Proof.
  destruct x as [s | s | | s m e]; simpl; intros H; try discriminate.
  - injection H; intros <-. exists 0. split; [reflexivity | lia].
  - injection H; intros <-. destruct (0 <=? e) eqn:He.
    + eexists. split; [reflexivity | lia].
    + eexists. split; [reflexivity | ].
      apply quot_div_bounds. apply Z.pow_pos_nonneg; lia.
Qed.

(** X1: whatever the ratios, each computed count is the floor of its
    product or one more (the conversion truncates towards zero), it is the
    floor when the floor is not negative, and the test count is the
    remainder. *)
Theorem split_lengths_truncation (split : float * float * float) (n t v te : Z) :
  split_lengths split n = inr (t, v, te) ->
  exists qt qv : Z,
    Py.floor (split.1.1 * float_of_len n)%float = Some qt /\
    Py.floor (split.1.2 * float_of_len n)%float = Some qv /\
    qt <= t <= qt + 1 /\ qv <= v <= qv + 1 /\
    (0 <= qt -> t = qt) /\ (0 <= qv -> v = qv) /\
    te = n - t - v.
Proof.
  intros H. apply split_lengths_inr in H. destruct H as (Ht & Hv & Hte).
  apply int_of_SF_bounds in Ht. destruct Ht as (qt & Hqt & Hbt & Het).
  apply int_of_SF_bounds in Hv. destruct Hv as (qv & Hqv & Hbv & Hev).
  exists qt, qv. unfold Py.floor. auto 10.
Qed.

Lemma split_lengths_truncation_witness :
  split_lengths (-0.5, 0.3, 0.2)%float 3 = inr (-1, 0, 4) /\
  exists qt qv : Z,
    Py.floor (-0.5 * float_of_len 3)%float = Some qt /\
    Py.floor (0.3 * float_of_len 3)%float = Some qv /\
    qt <= -1 <= qt + 1 /\ qv <= 0 <= qv + 1 /\
    (0 <= qt -> -1 = qt) /\ (0 <= qv -> 0 = qv) /\
    4 = 3 - -1 - 0.
Proof.
  assert (H : split_lengths (-0.5, 0.3, 0.2)%float 3 = inr (-1, 0, 4))
    by (vm_compute; reflexivity).
  split; [exact H | ].
  exact (split_lengths_truncation (-0.5, 0.3, 0.2)%float 3 (-1) 0 4 H).
Defined.

(** ** Which calls return and which raise *)

Lemma bind_inl_l {A B : Type} (e : exn) (f : A -> result B) :
  (inl e ≫= f) = inl e.
Proof. reflexivity. Qed.

Lemma int_inl (x : float) (e : exn) :
  Py.int x = inl e ->
  (is_nan x = true /\ e = ValueError) \/
  ((exists s, Prim2SF x = S754_infinity s) /\ e = OverflowError).
Proof.
  unfold Py.int, is_nan. destruct (Prim2SF x) as [s | s | | s m k]; simpl;
    intros H; try discriminate; injection H; intros <-.
  - right. split; [exists s; reflexivity | reflexivity].
  - left. split; reflexivity.
Qed.



Lemma mul_nan_l (f y : float) :
  is_nan f = true -> Py.int (f * y)%float = inl ValueError.
Proof.
  unfold is_nan, Py.int. rewrite FloatAxioms.mul_spec. unfold SF64mul, SFmul.
  destruct (Prim2SF f); try discriminate. reflexivity.
Qed.

Section Outcomes.

Variable Generator : Type.
Variable manual_seed : Z -> Generator.
Variable randperm : Z -> Generator -> list Z.
Variable SlidesDataset_init :
  string -> Z -> Z -> list Transform -> bool -> result SlidesDataset.t.

Hypothesis randperm_perm :
  forall (n : Z) (g : Generator), 0 <= n -> Permutation (randperm n g) (range n).



(** X4: a NaN train ratio makes [setup] raise [ValueError] for every
    dataset, and a NaN validation ratio makes it raise as well; the third
    ratio is not looked at. *)
Theorem setup_nan_ratio (stage : option string) (p : Process.t)
    (d : SlidesDataset.t) :
  unpopulated (Process.self p) = true ->
  construct SlidesDataset_init (Process.self p) = inr d ->
  0 <= SlidesDataset.total_samples d < 2 ^ 63 ->
  (is_nan (HParams.train_val_test_split (hparams (Process.self p))).1.1 = true ->
   setup Generator manual_seed randperm SlidesDataset_init stage p = inl ValueError) /\
  (is_nan (HParams.train_val_test_split (hparams (Process.self p))).1.2 = true ->
   exists e : exn,
     setup Generator manual_seed randperm SlidesDataset_init stage p = inl e /\
     (e = ValueError \/ e = OverflowError)).
Proof.
  intros Hu Hd Hn. unfold construct in Hd.
  assert (Hlen : Py.len (SlidesDataset.total_samples d)
                 = inr (SlidesDataset.total_samples d))
    by (apply len_inr; auto).
  rewrite (setup_eq _ _ _ _ stage p Hu), Hd, bind_inr_l, Hlen, bind_inr_l.
  destruct (HParams.train_val_test_split (hparams (Process.self p)))
    as [[ft fv] fe]. simpl. unfold split_lengths. split.
  - intros Hnan. rewrite (mul_nan_l ft _ Hnan). reflexivity.
  - intros Hnan.
    destruct (Py.int (ft * float_of_len (SlidesDataset.total_samples d))%float)
      as [e | t] eqn:Ht.
    + exists e. split; [reflexivity | ].
      apply int_inl in Ht. destruct Ht as [[_ ->] | [_ ->]]; auto.
    + rewrite bind_inr_l, (mul_nan_l fv _ Hnan). exists ValueError. auto.
Qed.

End Outcomes.

(** ** Sizes and coverage of the partitions *)


Lemma expand_nonpositive (P : Z) (I : list Z) : P <= 0 -> expand P I = [].
Proof.
  intros HP. unfold expand, range.
  replace (Z.to_nat P) with 0%nat by lia. reflexivity.
Qed.

Lemma expand_nil (P : Z) : expand P [] = [].
Proof.
  unfold expand. induction (range P) as [ | j js IH]; [reflexivity | exact IH].
Qed.

Lemma expand_one (I : list Z) : expand 1 I = I.
Proof.
  unfold expand. simpl. rewrite app_nil_r.
  induction I as [ | i I IH]; [reflexivity | ].
  simpl. rewrite IH. f_equal. lia.
Qed.

Lemma NoDup_expand (P : Z) (I : list Z) : NoDup I -> NoDup (expand P I).
Proof.
  intros HI. unfold expand.
  assert (Hjs : forall j, j ∈ range P -> 0 <= j < P)
    by (intros j Hj; apply elem_of_range, Hj).
  pose proof (NoDup_range P) as Hnd.
  induction (range P) as [ | j js IH]; [constructor | ].
  simpl. apply NoDup_cons in Hnd. destruct Hnd as [Hj Hnd].
  assert (Hj0 : 0 <= j < P) by (apply Hjs; left).
  apply NoDup_app. split; [ | split ].
  - apply NoDup_fmap_2_strong; [ | exact HI ].
    intros a b _ _ Hab. nia.
  - intros x Hx Hx'.
    apply list_elem_of_fmap in Hx. destruct Hx as (i & -> & Hi).
    apply list_elem_of_In, in_flat_map in Hx'. destruct Hx' as (j' & Hj' & Hx').
    apply list_elem_of_In in Hj'.
    apply list_elem_of_In, list_elem_of_fmap in Hx'. destruct Hx' as (i' & Heq & _).
    assert (Hj'0 : 0 <= j' < P) by (apply Hjs; right; exact Hj').
    assert (i = i') by (eapply expansion_injective; [ | | exact Heq ]; lia).
    subst i'. assert (j = j') by lia. subst j'. exact (Hj Hj').
  - apply IH; [ | exact Hnd ]. intros j' Hj'. apply Hjs. right. exact Hj'.
Qed.

Lemma in_expansion_range (P n x : Z) :
  0 <= n ->
  ((exists i j, 0 <= i < n /\ 0 <= j < P /\ x = i * P + j) <-> 0 <= x < n * P).
Proof.
  intros Hn. split.
  - intros (i & j & Hi & Hj & ->). nia.
  - intros Hx. assert (HP : 0 < P) by nia.
    exists (x / P), (x mod P).
    pose proof (Z.div_mod x P ltac:(lia)) as Hd.
    pose proof (Z.mod_pos_bound x P HP) as Hm.
    repeat split; try lia.
    + apply Z.div_pos; lia.
    + apply Z.div_lt_upper_bound; lia.
Qed.

(** The expansion of an exact cover of [range(n)] is an exact cover of
    [range(n * P)]. *)
Lemma covers_once_expand (P n : Z) (a b c : list Z) :
  0 <= n -> covers_once n a b c ->
  covers_once (n * P) (expand P a) (expand P b) (expand P c).
Proof.
  intros Hn Hc. pose proof Hc as Hperm. unfold covers_once in Hperm.
  assert (Hnd : NoDup (a ++ b ++ c)) by (rewrite Hperm; apply NoDup_range).
  apply NoDup_app in Hnd. destruct Hnd as (Ha & _ & Hbc).
  apply NoDup_app in Hbc. destruct Hbc as (Hb & _ & Hcc).
  destruct (covers_once_disjoint n a b c Hc) as [Hdis Hmem].
  destruct (expand_disjoint3 P a b c Hdis) as (Eab & Eac & Ebc).
  unfold covers_once. apply NoDup_Permutation.
  - apply NoDup_app. split; [apply NoDup_expand, Ha | ]. split.
    + intros x Hx Hx'. apply elem_of_app in Hx'. destruct Hx' as [Hx' | Hx'].
      * exact (Eab x Hx Hx').
      * exact (Eac x Hx Hx').
    + apply NoDup_app. split; [apply NoDup_expand, Hb | ].
      split; [exact Ebc | apply NoDup_expand, Hcc].
  - apply NoDup_range.
  - intros x. rewrite elem_of_range, <- (in_expansion_range P n x Hn).
    rewrite !elem_of_app, !elem_of_expand. unfold in_expansion. split.
    + intros [H | [H | H]]; destruct H as (i & j & Hi & Hj & ->);
        exists i, j; (split; [apply Hmem; auto | auto]).
    + intros (i & j & Hi & Hj & ->). apply Hmem in Hi.
      destruct Hi as [Hi | [Hi | Hi]]; [left | right; left | right; right];
        exists i, j; auto.
Qed.

(** Position [j * len(I) + k] of the expanded list holds [I[k] * P + j]. *)
Lemma flat_map_lookup_block {A B : Type} (f : A -> list B) (js : list A)
    (m a k : nat) :
  (forall j, length (f j) = m) -> (k < m)%nat ->
  flat_map f js !! (a * m + k)%nat = js !! a ≫= fun j => f j !! k.
Proof.
  intros Hf Hk. revert a. induction js as [ | j js IH]; intros a.
  - simpl. destruct a; reflexivity.
  - simpl. destruct a as [ | a].
    + simpl. rewrite lookup_app_l by (rewrite Hf; exact Hk). reflexivity.
    + rewrite lookup_app_r by (rewrite Hf; simpl; lia).
      rewrite Hf. replace (S a * m + k - m)%nat with (a * m + k)%nat by (simpl; lia).
      apply IH.
Qed.

(** X5: the expanded list is made of [P] blocks as long as the list before
    expansion; block [j] holds the indices [i * P + j] in the order of the
    list before expansion. *)
Theorem expand_block_order (P j : Z) (I : list Z) (k : nat) :
  0 <= j < P -> (k < length I)%nat ->
  expand P I !! (Z.to_nat j * length I + k)%nat
  = (fun i => i * P + j) <$> I !! k.
Proof.
  intros Hj Hk. unfold expand.
  rewrite (flat_map_lookup_block _ _ (length I)).
  - unfold range. rewrite list_lookup_fmap, lookup_seq_lt by lia. simpl.
    rewrite Z2Nat.id by lia. apply list_lookup_fmap.
  - intros j'. apply length_map.
  - exact Hk.
Qed.

Lemma expand_block_order_witness :
  0 <= 1 < 2 /\ (2 < length [2; 3; 4])%nat /\
  expand 2 [2; 3; 4] !! (Z.to_nat 1 * length [2; 3; 4] + 2)%nat
  = (fun i => i * 2 + 1) <$> [2; 3; 4] !! 2%nat.
Proof.
  assert (Hj : 0 <= 1 < 2) by lia.
  assert (Hk : (2 < length [2; 3; 4])%nat) by (simpl; lia).
  split; [exact Hj | ]. split; [exact Hk | ].
  exact (expand_block_order 2 1 [2; 3; 4] 2 Hj Hk).
Defined.

Section Partitions.

Variable Generator : Type.
Variable manual_seed : Z -> Generator.
Variable randperm : Z -> Generator -> list Z.
Variable SlidesDataset_init :
  string -> Z -> Z -> list Transform -> bool -> result SlidesDataset.t.

Hypothesis randperm_perm :
  forall (n : Z) (g : Generator), 0 <= n -> Permutation (randperm n g) (range n).



(** X7: for non-negative ratios the three expanded index lists together
    hold every index of [range(total_samples * patch_per_slide)] exactly
    once. *)
Theorem setup_expanded_cover (stage : option string) (p p' : Process.t) :
  ratios_nonneg (HParams.train_val_test_split (hparams (Process.self p))) ->
  unpopulated (Process.self p) = true ->
  setup Generator manual_seed randperm SlidesDataset_init stage p = inr p' ->
  exists (d : SlidesDataset.t) (tr va te : Subset.t),
    construct SlidesDataset_init (Process.self p) = inr d /\
    data_train (Process.self p') = Some tr /\
    data_val (Process.self p') = Some va /\
    data_test (Process.self p') = Some te /\
    covers_once
      (SlidesDataset.total_samples d
       * HParams.patch_per_slide (hparams (Process.self p)))
      (Subset.indices tr) (Subset.indices va) (Subset.indices te).
Proof.
  intros Hr Hu H.
  destruct (setup_inv _ _ _ _ stage p p' Hu H) as (d & t & v & te & Hd & Hn & Hl & ->).
  destruct (split_lengths_nonneg _ _ _ _ _ Hr Hl) as [Ht Hv].
  exists d. eexists _, _, _. split; [exact Hd | ].
  unfold computed. simpl. repeat (split; [reflexivity | ]). simpl.
  apply covers_once_expand; [lia | ].
  apply slices_cover_once; [exact randperm_perm | lia | exact Ht | exact Hv].
Qed.

End Partitions.

(** ** The dataset object, the replication factor and the guard *)

Section Lifecycle.

Variable Generator : Type.
Variable manual_seed : Z -> Generator.
Variable randperm : Z -> Generator -> list Z.
Variable SlidesDataset_init :
  string -> Z -> Z -> list Transform -> bool -> result SlidesDataset.t.

Hypothesis randperm_perm :
  forall (n : Z) (g : Generator), 0 <= n -> Permutation (randperm n g) (range n).


(** X9: with [patch_per_slide = 1], the default, the expansion leaves the
    index lists of [random_split] as they are; with [patch_per_slide <= 0]
    it leaves three empty partitions. *)
Theorem setup_patch_per_slide_edges (stage : option string) (p p' : Process.t) :
  unpopulated (Process.self p) = true ->
  setup Generator manual_seed randperm SlidesDataset_init stage p = inr p' ->
  exists p1 : Process.t,
    split_stage Generator manual_seed randperm SlidesDataset_init p = inr p1 /\
    (HParams.patch_per_slide (hparams (Process.self p)) = 1 ->
     forall k : Part,
       partition_indices k (Process.self p') = partition_indices k (Process.self p1)) /\
    (HParams.patch_per_slide (hparams (Process.self p)) <= 0 ->
     forall k : Part, partition_indices k (Process.self p') = Some []).
Proof.
  intros Hu H. unfold setup in H. rewrite Hu in H.
  apply bind_inr in H. destruct H as (p1 & H1 & H2).
  exists p1. split; [exact H1 | ].
  pose proof (split_stage_hparams _ _ _ _ p p1 H1) as Hhp.
  split.
  - intros HP k. destruct (expand_stage_inv p1 p' k H2) as (s & Hs & Hs').
    unfold partition_indices. rewrite Hs, Hs', Hhp, HP. simpl.
    rewrite expand_one. reflexivity.
  - intros HP k. destruct (expand_stage_inv p1 p' k H2) as (s & Hs & Hs').
    unfold partition_indices. rewrite Hs', Hhp. simpl.
    rewrite expand_nonpositive by exact HP. reflexivity.
Qed.

Lemma computed_unpopulated (p : Process.t) (d : SlidesDataset.t) (t v : Z)
    (g : Generator) :
  HParams.patch_per_slide (hparams (Process.self p)) <= 0 \/
  SlidesDataset.total_samples d = 0 ->
  unpopulated
    (Process.self (computed p d (randperm (SlidesDataset.total_samples d) g) t v))
  = true.
Proof.
  intros [HP | Hn]; unfold computed, unpopulated, truthy, Subset.len; simpl.
  - rewrite !expand_nonpositive by exact HP. reflexivity.
  - rewrite Hn.
    assert (Hnil : randperm 0 g = []).
    { apply Permutation_nil_r. apply randperm_perm. lia. }
    rewrite Hnil. unfold slice. rewrite !drop_nil, !take_nil, !expand_nil.
    reflexivity.
Qed.

(** X10: with an empty dataset or [patch_per_slide <= 0] no partition is
    populated after [setup], so the guard never holds: the next call
    constructs the dataset once more and again leaves nothing populated. *)
Theorem setup_never_guarded (stage stage' : option string) (p p1 : Process.t)
    (d : SlidesDataset.t) :
  unpopulated (Process.self p) = true ->
  construct SlidesDataset_init (Process.self p) = inr d ->
  HParams.patch_per_slide (hparams (Process.self p)) <= 0 \/
  SlidesDataset.total_samples d = 0 ->
  setup Generator manual_seed randperm SlidesDataset_init stage p = inr p1 ->
  unpopulated (Process.self p1) = true /\
  exists p2 : Process.t,
    setup Generator manual_seed randperm SlidesDataset_init stage' p1 = inr p2 /\
    length (Process.objects p2) = S (S (length (Process.objects p))) /\
    unpopulated (Process.self p2) = true.
Proof.
  intros Hu Hd Hedge H. unfold construct in Hd.
  destruct (setup_inv _ _ _ _ stage p p1 Hu H) as (d0 & t & v & te & Hd0 & Hn & Hl & ->).
  rewrite Hd in Hd0. injection Hd0; intros <-.
  set (perm := randperm (SlidesDataset.total_samples d) (manual_seed 42)).
  assert (Hu1 : unpopulated (Process.self (computed p d perm t v)) = true)
    by (apply computed_unpopulated; exact Hedge).
  split; [exact Hu1 | ].
  exists (computed (computed p d perm t v) d perm t v). split; [ | split ].
  - rewrite (setup_eq _ _ _ _ stage' _ Hu1). simpl. rewrite Hd, bind_inr_l.
    assert (Hlen : Py.len (SlidesDataset.total_samples d)
                   = inr (SlidesDataset.total_samples d))
      by (apply len_inr; auto).
    rewrite Hlen, bind_inr_l, Hl, bind_inr_l. reflexivity.
  - unfold computed. simpl. rewrite !length_app. simpl. lia.
  - apply (computed_unpopulated (computed p d perm t v) d t v (manual_seed 42)).
    exact Hedge.
Qed.

(** X11: on a module with a populated partition, the calls that follow the
    first [setup] of a run (teardown, restoring a checkpoint, [prepare_data],
    [setup] for another stage and its teardown) return the state they were
    given: the split made for fitting is the one used for testing. *)
Theorem lifecycle_keeps_split (stage1 stage2 : option string)
    (state : gmap string value) (p1 : Process.t) :
  some_populated (Process.self p1) ->
  (p2 ← teardown stage1 p1;
   p3 ← load_state_dict state p2;
   p4 ← prepare_data p3;
   p5 ← setup Generator manual_seed randperm SlidesDataset_init stage2 p4;
   teardown stage2 p5) = inr p1.
Proof.
  intros Hp. apply some_populated_iff in Hp.
  unfold teardown, load_state_dict, prepare_data.
  unfold mret, result_ret. rewrite !bind_inr_l.
  rewrite (setup_populated _ _ _ _ stage2 p1 Hp). reflexivity.
Qed.

End Lifecycle.

(** X12: the index lists depend on the first two ratios, on
    [patch_per_slide] and on [total_samples] only: two modules that agree on
    these, whatever their third ratio, slides file, crop and patch sizes,
    batch size, workers, pinning and variant flag, get the same lists. *)
Theorem setup_depends_on (Generator : Type) (manual_seed : Z -> Generator)
    (randperm : Z -> Generator -> list Z)
    (init1 init2 : string -> Z -> Z -> list Transform -> bool -> result SlidesDataset.t)
    (stage1 stage2 : option string) (p1 p2 q1 : Process.t)
    (d1 d2 : SlidesDataset.t) :
  (HParams.train_val_test_split (hparams (Process.self p1))).1
  = (HParams.train_val_test_split (hparams (Process.self p2))).1 ->
  HParams.patch_per_slide (hparams (Process.self p1))
  = HParams.patch_per_slide (hparams (Process.self p2)) ->
  unpopulated (Process.self p1) = true ->
  unpopulated (Process.self p2) = true ->
  construct init1 (Process.self p1) = inr d1 ->
  construct init2 (Process.self p2) = inr d2 ->
  SlidesDataset.total_samples d1 = SlidesDataset.total_samples d2 ->
  setup Generator manual_seed randperm init1 stage1 p1 = inr q1 ->
  exists q2 : Process.t,
    setup Generator manual_seed randperm init2 stage2 p2 = inr q2 /\
    forall k : Part,
      partition_indices k (Process.self q2) = partition_indices k (Process.self q1).
Proof.
  intros Hsplit HP Hu1 Hu2 Hd1 Hd2 Hn H. unfold construct in Hd1, Hd2.
  rewrite (setup_eq _ _ _ _ stage1 p1 Hu1), Hd1, bind_inr_l in H.
  apply bind_inr in H. destruct H as (n & Hlen & H).
  apply bind_inr in H. destruct H as ([[t v] te] & Hl & H).
  injection H; intros <-; clear H.
  rewrite (setup_eq _ _ _ _ stage2 p2 Hu2), Hd2, bind_inr_l.
  rewrite <- Hn, Hlen, bind_inr_l.
  assert (Hl2 : split_lengths
                  (HParams.train_val_test_split (hparams (Process.self p2))) n
                = inr (t, v, te)).
  { apply split_lengths_inr. apply split_lengths_inr in Hl.
    rewrite <- Hsplit. exact Hl. }
  rewrite Hl2, bind_inr_l. eexists. split; [reflexivity | ].
  intros k. unfold computed, partition_indices.
  rewrite <- HP, <- Hn. destruct k; reflexivity.
Qed.

(** ** A failing [setup] *)

Section Failing.

Variable Generator : Type.
Variable manual_seed : Z -> Generator.
Variable randperm : Z -> Generator -> list Z.
Variable SlidesDataset_init :
  string -> Z -> Z -> list Transform -> bool -> result SlidesDataset.t.

Lemma stmt_bind_eq {A B : Type} (m : stmt A) (f : A -> stmt B) (p : Process.t) :
  (m ≫= f) p =
  match m p with
  | (inl e, p') => (inl e, p')
  | (inr a, p') => f a p'
  end.
Proof. reflexivity. Qed.

Lemma setup_steps_eq (stage : option string) (p : Process.t) :
  unpopulated (Process.self p) = true ->
  setup_steps Generator manual_seed randperm SlidesDataset_init stage p =
  match construct SlidesDataset_init (Process.self p) with
  | inl e => (inl e, p)
  | inr d =>
      let p0 := {| Process.objects := Process.objects p ++ [d];
                   Process.self := Process.self p |} in
      match Py.len (SlidesDataset.total_samples d) with
      | inl e => (inl e, p0)
      | inr n =>
          match split_lengths
                  (HParams.train_val_test_split (hparams (Process.self p))) n with
          | inl e => (inl e, p0)
          | inr (t, v, _) =>
              (inr tt, computed p d (randperm n (manual_seed 42)) t v)
          end
      end
  end.
Proof.
  intros Hu. unfold setup_steps, construct. rewrite stmt_bind_eq.
  unfold get_self at 1. rewrite Hu. cbv zeta.
  rewrite stmt_bind_eq. unfold eval at 1.
  destruct (SlidesDataset_init _ _ _ _ _) as [e | d]; [reflexivity | ].
  rewrite stmt_bind_eq. unfold new_dataset at 1, alloc.
  rewrite stmt_bind_eq. unfold eval at 1.
  destruct (Py.len (SlidesDataset.total_samples d)) as [e | n] eqn:Hn;
    [reflexivity | ].
  rewrite stmt_bind_eq. unfold eval at 1.
  destruct (split_lengths _ n) as [e | [[t v] te]] eqn:Hl; [reflexivity | ].
  apply split_lengths_inr in Hl. destruct Hl as (_ & _ & ->).
  rewrite stmt_bind_eq. unfold get_objects at 1. cbn [Process.objects].
  rewrite stmt_bind_eq. unfold eval at 1.
  rewrite (random_split_three _ _ _ _ _ _ _ _ Hn).
  apply len_inr in Hn. destruct Hn as [-> _].
  cbv [mbind stmt_bind assign store_patch_per_slide store_expanded get_self
       eval the_partition partition store_attr mret result_ret stmt_ret
       Process.self Process.objects set_partitions data_train data_val
       data_test Subset.dataset Subset.indices Subset.set_indices].
  rewrite setattr_alloc. cbv iota beta.
  rewrite setattr_alloc. cbv iota beta.
  rewrite setattr_alloc. cbv iota beta.
  reflexivity.
Qed.

(** X13: read statement by statement, [setup] assigns the partitions only
    after everything that can raise: it returns exactly the state [setup]
    returns, and when an exception leaves it the module object is as it was
    before the call, so that the guard of a later call does not hold and the
    split is tried again. *)
Theorem setup_steps_failure_keeps_module (stage : option string)
    (p : Process.t) :
  (forall p' : Process.t,
     setup_steps Generator manual_seed randperm SlidesDataset_init stage p
     = (inr tt, p') <->
     setup Generator manual_seed randperm SlidesDataset_init stage p = inr p') /\
  (forall (e : exn) (p' : Process.t),
     setup_steps Generator manual_seed randperm SlidesDataset_init stage p
     = (inl e, p') ->
     setup Generator manual_seed randperm SlidesDataset_init stage p = inl e /\
     Process.self p' = Process.self p /\
     unpopulated (Process.self p') = true).
Proof.
  destruct (unpopulated (Process.self p)) eqn:Hu.
  - rewrite (setup_steps_eq stage p Hu), (setup_eq _ _ _ _ stage p Hu).
    unfold construct.
    destruct (SlidesDataset_init _ _ _ _ _) as [e0 | d].
    { rewrite bind_inl_l. split.
      - intros p'. split; discriminate.
      - intros e p' H. injection H; intros <- <-. auto. }
    rewrite bind_inr_l. cbv zeta.
    destruct (Py.len (SlidesDataset.total_samples d)) as [e0 | n].
    { rewrite bind_inl_l. split.
      - intros p'. split; discriminate.
      - intros e p' H. injection H; intros <- <-. auto. }
    rewrite bind_inr_l.
    destruct (split_lengths _ n) as [e0 | [[t v] te]].
    { rewrite bind_inl_l. split.
      - intros p'. split; discriminate.
      - intros e p' H. injection H; intros <- <-. auto. }
    rewrite bind_inr_l. split.
    + intros p'. split; intros H; injection H; intros <-; reflexivity.
    + intros e p' H. discriminate.
  - rewrite (setup_populated _ _ _ _ stage p Hu).
    unfold setup_steps. rewrite stmt_bind_eq. unfold get_self. rewrite Hu.
    split.
    + intros p'. split; intros H; injection H; intros <-; reflexivity.
    + intros e p' H. discriminate.
Qed.

End Failing.

(** ** The further properties on the demo instance *)



Lemma setup_nan_ratio_witness :
  is_nan (HParams.train_val_test_split nan_train).1.1 = true /\
  demo_setup None (fresh nan_train) = inl ValueError.
Proof.
  assert (Hnan : is_nan (HParams.train_val_test_split nan_train).1.1 = true)
    by reflexivity.
  split; [exact Hnan | ].
  refine (proj1 (setup_nan_ratio Z (fun seed => seed) rotate_perm ten_slides
                   None (fresh nan_train)
                   {| SlidesDataset.total_samples := 10;
                      SlidesDataset.patch_per_slide := 1 |}
                   eq_refl eq_refl _) Hnan).
  vm_compute. split; [discriminate | reflexivity].
Defined.


Lemma setup_expanded_cover_witness :
  demo_setup None (fresh two_patches) = inr after_setup /\
  exists (d : SlidesDataset.t) (tr va te : Subset.t),
    construct ten_slides (Process.self (fresh two_patches)) = inr d /\
    data_train (Process.self after_setup) = Some tr /\
    data_val (Process.self after_setup) = Some va /\
    data_test (Process.self after_setup) = Some te /\
    covers_once (SlidesDataset.total_samples d * 2)
      (Subset.indices tr) (Subset.indices va) (Subset.indices te).
Proof.
  assert (Hs : demo_setup None (fresh two_patches) = inr after_setup)
    by (vm_compute; reflexivity).
  split; [exact Hs | ].
  refine (setup_expanded_cover Z (fun seed => seed) rotate_perm ten_slides
            rotate_perm_perm None (fresh two_patches) after_setup _ eq_refl Hs).
  split; reflexivity.
Defined.


Lemma setup_patch_per_slide_edges_witness :
  exists p' : Process.t,
    demo_setup None (fresh HParams.default) = inr p' /\
    exists p1 : Process.t,
      demo_split_stage (fresh HParams.default) = inr p1 /\
      (HParams.patch_per_slide HParams.default = 1 ->
       forall k : Part,
         partition_indices k (Process.self p') = partition_indices k (Process.self p1)) /\
      (HParams.patch_per_slide HParams.default <= 0 ->
       forall k : Part, partition_indices k (Process.self p') = Some []).
Proof.
  destruct (demo_setup None (fresh HParams.default)) as [e | p'] eqn:Hs;
    [ vm_compute in Hs; discriminate | ].
  exists p'. split; [reflexivity | ].
  exact (setup_patch_per_slide_edges Z (fun seed => seed) rotate_perm ten_slides
           None (fresh HParams.default) p' eq_refl Hs).
Defined.

Lemma setup_never_guarded_witness :
  setup Z (fun seed => seed) rotate_perm no_slides None (fresh two_patches)
  = inr (after_empty_setup 1) /\
  unpopulated (Process.self (after_empty_setup 1)) = true /\
  exists p2 : Process.t,
    setup Z (fun seed => seed) rotate_perm no_slides (Some "test")
      (after_empty_setup 1) = inr p2 /\
    length (Process.objects p2) = 2%nat /\
    unpopulated (Process.self p2) = true.
Proof.
  assert (Hs : setup Z (fun seed => seed) rotate_perm no_slides None
                 (fresh two_patches) = inr (after_empty_setup 1))
    by (vm_compute; reflexivity).
  split; [exact Hs | ].
  exact (setup_never_guarded Z (fun seed => seed) rotate_perm no_slides
           rotate_perm_perm None (Some "test") (fresh two_patches)
           (after_empty_setup 1)
           {| SlidesDataset.total_samples := 0; SlidesDataset.patch_per_slide := 1 |}
           eq_refl eq_refl (or_intror eq_refl) Hs).
Defined.

Lemma lifecycle_keeps_split_witness :
  some_populated (Process.self after_setup) /\
  (p2 ← teardown (Some "fit") after_setup;
   p3 ← load_state_dict {[ "epoch" := VInt 3 ]} p2;
   p4 ← prepare_data p3;
   p5 ← demo_setup (Some "test") p4;
   teardown (Some "test") p5) = inr after_setup.
Proof.
  assert (Hp : some_populated (Process.self after_setup)) by (left; reflexivity).
  split; [exact Hp | ].
  exact (lifecycle_keeps_split Z (fun seed => seed) rotate_perm ten_slides
           (Some "fit") (Some "test") {[ "epoch" := VInt 3 ]} after_setup Hp).
Defined.

Lemma setup_depends_on_witness :
  demo_setup (Some "fit") (fresh two_patches) = inr after_setup /\
  exists q2 : Process.t,
    setup Z (fun seed => seed) rotate_perm ten_slides_elsewhere (Some "test")
      (elsewhere other_config) = inr q2 /\
    forall k : Part,
      partition_indices k (Process.self q2)
      = partition_indices k (Process.self after_setup).
Proof.
  assert (Hs : demo_setup (Some "fit") (fresh two_patches) = inr after_setup)
    by (vm_compute; reflexivity).
  split; [exact Hs | ].
  exact (setup_depends_on Z (fun seed => seed) rotate_perm ten_slides
           ten_slides_elsewhere (Some "fit") (Some "test") (fresh two_patches)
           (elsewhere other_config) after_setup
           {| SlidesDataset.total_samples := 10; SlidesDataset.patch_per_slide := 1 |}
           {| SlidesDataset.total_samples := 10; SlidesDataset.patch_per_slide := 4 |}
           eq_refl eq_refl eq_refl eq_refl eq_refl eq_refl eq_refl Hs).
Defined.
